(** * aare.ai (Azure): ontology loader and verification core

    A shallow embedding of [handlers/ontology_loader.py] (the ontology
    loader, its validation and the built-in mortgage-compliance ontology)
    and, modelled from the specification, of the extraction and constraint
    evaluation core that the HTTP entry point [function_app.py] calls
    through the [aare_core] package. *)

From Stdlib Require Import ZArith QArith Ascii String List Bool Lia.
From stdpp Require Import base option strings list gmap pretty.

Local Open Scope string_scope.
Local Open Scope Z_scope.

(** ** Python values the loader handles *)

Module Py.

(** The exceptions that can travel through [OntologyLoader.load]. All of
    them derive from [Exception]. *)
Inductive exn : Type :=
| ValueError (msg : string)
| TypeError (msg : string)
| ResourceNotFoundError
| JSONDecodeError
| OtherException (msg : string).

Inductive result (A : Type) : Type :=
| Return (a : A)
| Raise (e : exn).
Arguments Return {A} a.
Arguments Raise {A} e.

Definition bind {A B} (m : result A) (k : A -> result B) : result B :=
  match m with
  | Return a => k a
  | Raise e => Raise e
  end.

Definition raises {A} (m : result A) : Prop :=
  match m with Raise _ => True | Return _ => False end.

(** The value [json.loads] produces: [dict] keeps insertion order and is
    kept as an association list. *)
#[local] Set Warnings "-register-all".
Inductive json : Type :=
| JNone
| JBool (b : bool)
| JInt (n : Z)
| JFloat (literal : string)
| JStr (s : string)
| JList (items : list json)
| JDict (items : list (string * json)).

(** [s in t] on two [str]: substring test. *)
Fixpoint str_prefix (s t : string) : bool :=
  match s, t with
  | EmptyString, _ => true
  | String a s', String b t' => Ascii.eqb a b && str_prefix s' t'
  | String _ _, EmptyString => false
  end.

Fixpoint str_contains (s t : string) : bool :=
  str_prefix s t
  || match t with
     | EmptyString => false
     | String _ t' => str_contains s t'
     end.

Definition dict_has_key (k : string) (items : list (string * json)) : bool :=
  existsb (fun kv => String.eqb k (fst kv)) items.

Fixpoint dict_get (k : string) (items : list (string * json)) : option json :=
  match items with
  | [] => None
  | (k', v) :: rest => if String.eqb k k' then Some v else dict_get k rest
  end.

Definition is_str (s : string) (j : json) : bool :=
  match j with JStr t => String.eqb s t | _ => false end.

(** The operator [field in obj] for a [str] field: key test on a dict,
    element test on a list, substring test on a str, [TypeError] on a
    value that is not a container. *)
Definition contains (field : string) (obj : json) : result bool :=
  match obj with
  | JDict items => Return (dict_has_key field items)
  | JList items => Return (existsb (is_str field) items)
  | JStr s => Return (str_contains field s)
  | JNone => Raise (TypeError "argument of type 'NoneType' is not iterable")
  | JBool _ => Raise (TypeError "argument of type 'bool' is not iterable")
  | JInt _ => Raise (TypeError "argument of type 'int' is not iterable")
  | JFloat _ => Raise (TypeError "argument of type 'float' is not iterable")
  end.

(** [a or b] where [a] is [None] or a [str]: the empty string is falsy. *)
Definition str_or (a : option string) (b : string) : string :=
  match a with
  | Some (String c s) => String c s
  | Some EmptyString | None => b
  end.

End Py.


(** ** handlers/ontology_loader.py *)

Module OntologyLoader.
Import Py.

(** The Azure SDK objects reached from [load]; every call can raise. *)
Record StorageStreamDownloader : Type :=
  { readall : result string }.
Record BlobClient : Type :=
  { download_blob : result StorageStreamDownloader }.
Record ContainerClient : Type :=
  { get_blob_client : string -> result BlobClient }.
Record BlobServiceClient : Type :=
  { get_container_client : string -> result ContainerClient }.

Record t : Type :=
  { container_name : string;
    connection_string : string;
    blob_service_client : option BlobServiceClient }.

Definition required_fields : list string :=
  ["name"; "version"; "constraints"; "extractors"].

(** The loop of [_validate_ontology]: the first field that is not in the
    document raises. *)
Fixpoint check_fields (fields : list string) (ontology : json) : result unit :=
  match fields with
  | [] => Return tt
  | field :: rest =>
      bind (contains field ontology) (fun present : bool =>
        if present then check_fields rest ontology
        else Raise (ValueError ("Invalid ontology: missing " +:+ field)))
  end.

Definition _validate_ontology (ontology : json) : result json :=
  bind (check_fields required_fields ontology) (fun _ => Return ontology).

(** Helpers for writing the dict literal of [_get_default_ontology]. *)
Definition variable (name type : string) : json :=
  JDict [("name", JStr name); ("type", JStr type)].

Definition constraint (id category description formula_readable : string)
    (variables : list json) (error_message citation : string) : json :=
  JDict [("id", JStr id);
         ("category", JStr category);
         ("description", JStr description);
         ("formula_readable", JStr formula_readable);
         ("variables", JList variables);
         ("error_message", JStr error_message);
         ("citation", JStr citation)].

Definition pattern_extractor (type pattern : string) : json :=
  JDict [("type", JStr type); ("pattern", JStr pattern)].

Definition keyword_extractor (keywords : list string) : json :=
  JDict [("type", JStr "boolean"); ("keywords", JList (map JStr keywords))].

Definition default_constraints : list json :=
  [ constraint "ATR_QM_DTI" "ATR/QM"
      "Debt-to-income ratio requirements"
      "(dti ≤ 43) ∨ (compensating_factors ≥ 2)"
      [variable "dti" "real"; variable "compensating_factors" "int"]
      "DTI exceeds 43% without sufficient compensating factors"
      "12 CFR § 1026.43(c)";
    constraint "HOEPA_HIGH_COST" "HOEPA"
      "High-cost mortgage counseling requirement"
      "(fee_percentage < 8) ∨ counseling_disclosed"
      [variable "fee_percentage" "real"; variable "counseling_disclosed" "bool"]
      "HOEPA triggered - counseling disclosure required"
      "12 CFR § 1026.32";
    constraint "UDAAP_NO_GUARANTEES" "UDAAP"
      "Prohibition on guarantee language"
      "¬(has_guarantee ∧ has_approval)"
      [variable "has_guarantee" "bool"; variable "has_approval" "bool"]
      "Cannot guarantee approval"
      "12 CFR § 1036.3";
    constraint "HPML_ESCROW" "Escrow"
      "Escrow requirements based on FICO"
      "(credit_score ≥ 620) ∨ ¬escrow_waived"
      [variable "credit_score" "int"; variable "escrow_waived" "bool"]
      "Cannot waive escrow with FICO < 620"
      "12 CFR § 1026.35(b)";
    constraint "REG_B_ADVERSE" "Regulation B"
      "Adverse action disclosure requirements"
      "is_denial → has_specific_reason"
      [variable "is_denial" "bool"; variable "has_specific_reason" "bool"]
      "Must disclose specific denial reason"
      "12 CFR § 1002.9" ].

Definition default_extractors : list (string * json) :=
  [ ("dti", pattern_extractor "float" "dti[:\s~]*(\d+(?:\.\d+)?)");
    ("credit_score",
      pattern_extractor "int" "(?:fico|credit score)[:\s]*(\d{3})");
    ("fees", pattern_extractor "money" "\$?([\d,]+)k?\s*(?:fees?|costs?)");
    ("loan_amount",
      pattern_extractor "money" "\$?([\d,]+)k?\s*(?:loan|mortgage)");
    ("has_guarantee", keyword_extractor ["guaranteed"; "100%"; "definitely"]);
    ("has_approval", keyword_extractor ["approved"; "approve"]);
    ("counseling_disclosed", keyword_extractor ["counseling"]);
    ("escrow_waived",
      keyword_extractor ["escrow waived"; "waive escrow"; "skip escrow"]);
    ("is_denial", keyword_extractor ["denied"; "cannot approve"]);
    ("has_specific_reason",
      keyword_extractor ["credit"; "income"; "dti"; "debt"; "score"]) ].

(** [_get_default_ontology(self)]: a dict literal; [self] is not read. *)
Definition _get_default_ontology (self : t) : json :=
  JDict [("name", JStr "mortgage-compliance-v1");
         ("version", JStr "1.0.0");
         ("description", JStr "U.S. Mortgage Compliance - Core constraints");
         ("constraints", JList default_constraints);
         ("extractors", JDict default_extractors)].

Section Loading.

(** The process environment, the Azure SDK constructor and [json.loads]
    are outside the repository. *)
Variable environ : gmap string string.
Variable from_connection_string : string -> result BlobServiceClient.
Variable json_loads : string -> result json.

Definition __init__ (container_name connection_string : option string) : t :=
  let container :=
    str_or container_name (default "ontologies" (environ !! "ONTOLOGY_CONTAINER")) in
  let connection :=
    str_or connection_string
           (default "" (environ !! "AZURE_STORAGE_CONNECTION_STRING")) in
  {| container_name := container;
     connection_string := connection;
     blob_service_client :=
       match connection with
       | EmptyString => None
       | String _ _ =>
           match from_connection_string connection with
           | Return client => Some client
           | Raise _ => None
           end
       end |}.

(** The statements of the [try] block up to [json.loads]. *)
Definition download (self : t) (client : BlobServiceClient)
    (ontology_name : string) : result json :=
  bind (get_container_client client (container_name self)) (fun container_client =>
  bind (get_blob_client container_client (ontology_name +:+ ".json")) (fun blob_client =>
  bind (download_blob blob_client) (fun download =>
  bind (readall download) (fun data =>
  json_loads data)))).

(** The whole [try] block: it ends in [return self._validate_ontology(ontology)]. *)
Definition fetch (self : t) (client : BlobServiceClient)
    (ontology_name : string) : result json :=
  bind (download self client ontology_name) _validate_ontology.

(** The function that [lru_cache] wraps. Both handlers, the one for
    [ResourceNotFoundError] and the one for [Exception], only log and fall
    through to the default ontology. *)
Definition load_wrapped (self : t) (ontology_name : string) : result json :=
  match blob_service_client self with
  | Some client =>
      match fetch self client ontology_name with
      | Return ontology => Return ontology
      | Raise ResourceNotFoundError => Return (_get_default_ontology self)
      | Raise _ => Return (_get_default_ontology self)
      end
  | None => Return (_get_default_ontology self)
  end.

(** [lru_cache(maxsize=10)] keys on [(self, ontology_name)]; [self] is
    hashed by identity, here an object number. Most recent entry first. *)
Definition key : Type := nat * string.
Definition cache : Type := list (key * json).
Definition maxsize : nat := 10.

Definition key_eqb (k1 k2 : key) : bool :=
  Nat.eqb (fst k1) (fst k2) && String.eqb (snd k1) (snd k2).

Fixpoint cache_find (k : key) (c : cache) : option json :=
  match c with
  | [] => None
  | (k', v) :: rest => if key_eqb k k' then Some v else cache_find k rest
  end.

Definition cache_remove (k : key) (c : cache) : cache :=
  List.filter (fun entry => negb (key_eqb k (fst entry))) c.

Definition load (self_id : nat) (self : t) (ontology_name : string)
    (c : cache) : result json * cache :=
  let k := (self_id, ontology_name) in
  match cache_find k c with
  | Some ontology => (Return ontology, (k, ontology) :: cache_remove k c)
  | None =>
      match load_wrapped self ontology_name with
      | Return ontology =>
          (Return ontology, (k, ontology) :: firstn (maxsize - 1) c)
      | Raise e => (Raise e, c)
      end
  end.

(** Successive calls of [load] on one loader, threading the cache. *)
Fixpoint load_each (self_id : nat) (self : t) (names : list string) (c : cache)
    : list (result json) * cache :=
  match names with
  | [] => ([], c)
  | ontology_name :: rest =>
      let '(r, c1) := load self_id self ontology_name c in
      let '(rs, c2) := load_each self_id self rest c1 in
      (r :: rs, c2)
  end.

End Loading.

(** [str.endswith(suffix)] and [str.replace(old, new)] for a non-empty
    [old]: occurrences are replaced from the left and do not overlap. *)
Fixpoint ends_with (suffix s : string) : bool :=
  String.eqb suffix s
  || match s with
     | EmptyString => false
     | String _ s' => ends_with suffix s'
     end.

Fixpoint replace_from (old new : string) (skip : nat) (s : string) : string :=
  match s with
  | EmptyString => EmptyString
  | String c s' =>
      match skip with
      | S n => replace_from old new n s'
      | O =>
          if str_prefix old s
          then new +:+ replace_from old new (String.length old - 1) s'
          else String c (replace_from old new 0 s')
      end
  end.

Definition replace (old new s : string) : string := replace_from old new 0 s.

Section Listing.

(** [container_client.list_blobs()], read to its end: the [name] of every
    blob. The call and the iteration are inside the [try]. *)
Variable list_blobs : ContainerClient -> result (list string).

Definition list_available (self : t) : list string :=
  match blob_service_client self with
  | Some client =>
      match bind (get_container_client client (container_name self)) list_blobs with
      | Return names =>
          map (replace ".json" "") (List.filter (ends_with ".json") names)
      | Raise _ => ["mortgage-compliance-v1"]
      end
  | None => ["mortgage-compliance-v1"]
  end.

End Listing.

End OntologyLoader.

(** ** Reading the ontology document

    Accessors over the dict that [_get_default_ontology] returns, used to
    state facts about its constraints and extractors. *)

Module Document.
Import Py.

Definition field (k : string) (doc : json) : option json :=
  match doc with JDict items => dict_get k items | _ => None end.

Definition str_field (k : string) (doc : json) : string :=
  match field k doc with Some (JStr s) => s | _ => "" end.

Definition list_field (k : string) (doc : json) : list json :=
  match field k doc with Some (JList l) => l | _ => [] end.

Definition dict_field (k : string) (doc : json) : list (string * json) :=
  match field k doc with Some (JDict l) => l | _ => [] end.

(** The names listed under a constraint's [variables]. *)
Definition declared_variables (constraint : json) : list string :=
  map (str_field "name") (list_field "variables" constraint).

(** The identifiers written in a [formula_readable] text: maximal runs of
    ASCII letters, digits and underscores that do not start with a digit. *)
Definition is_digit (c : ascii) : bool :=
  let n := nat_of_ascii c in (48 <=? n)%nat && (n <=? 57)%nat.

Definition is_letter (c : ascii) : bool :=
  let n := nat_of_ascii c in
  ((65 <=? n)%nat && (n <=? 90)%nat)
  || ((97 <=? n)%nat && (n <=? 122)%nat)
  || (n =? 95)%nat.

Definition flush (cur : string) : list string :=
  match cur with EmptyString => [] | _ => [cur] end.

Fixpoint words (s cur : string) : list string :=
  match s with
  | EmptyString => flush cur
  | String c s' =>
      if is_letter c || is_digit c
      then words s' (cur +:+ String c EmptyString)
      else flush cur ++ words s' EmptyString
  end.

Definition starts_with_letter (w : string) : bool :=
  match w with String c _ => is_letter c | EmptyString => false end.

Definition identifiers (s : string) : list string :=
  List.filter starts_with_letter (words s EmptyString).

Definition formula_variables (constraint : json) : list string :=
  identifiers (str_field "formula_readable" constraint).

(** Every variable some constraint's formula mentions, in document order. *)
Definition referenced_variables (doc : json) : list string :=
  concat (map formula_variables (list_field "constraints" doc)).

Definition extractor_keys (doc : json) : list string :=
  map fst (dict_field "extractors" doc).

Definition has_extractor (doc : json) (x : string) : bool :=
  dict_has_key x (dict_field "extractors" doc).

End Document.

(** ** The verification core

    [function_app.py] calls [llm_parser.parse] and [smt_verifier.verify] of
    the [aare_core] package, which is not among the sources; the
    definitions of this module follow the specification's sections 3 and 4. *)

Module Core.

(** Modelled from the spec: the typed in-memory ontology model (section 3);
    the repository holds the ontology only as a JSON-shaped dict. *)
Inductive var_type : Type := TInt | TReal | TBool | TMoney.

Inductive value : Type :=
| VNum (q : Q)
| VBool (b : bool).

Inductive comparison : Type := LE | LT | GE | GT | EQ | NE.

Inductive LogicalExpression : Type :=
| AND (a b : LogicalExpression)
| OR (a b : LogicalExpression)
| NOT (a : LogicalExpression)
| IMPLIES (a b : LogicalExpression)
| COMPARE (op : comparison) (a b : LogicalExpression)
| VAR (name : string)
| LITERAL (v : value).

Inductive coercion : Type := CInt | CReal | CMoney.

Inductive ExtractorRule : Type :=
| Pattern (type : coercion) (pattern : string)
| Keywords (keywords : list string).

Module Constraint.
Record t : Type :=
  { id : string;
    category : string;
    description : string;
    formula : LogicalExpression;
    variables : list (string * var_type);
    error_message : string;
    citation : string }.
End Constraint.

Module Ontology.
Record t : Type :=
  { name : string;
    version : string;
    description : string;
    constraints : list Constraint.t;
    extractors : list (string * ExtractorRule) }.
End Ontology.

Abbreviation ExtractedAssignment := (gmap string value).

(** Modelled from the spec: three-valued evaluation of a formula over an
    assignment (section 4.3), which [SMTVerifier.verify] performs. *)
Inductive truth : Type := true3 | false3 | unknown.

Definition of_bool (b : bool) : truth := if b then true3 else false3.

Definition not3 (a : truth) : truth :=
  match a with true3 => false3 | false3 => true3 | unknown => unknown end.

Definition and3 (a b : truth) : truth :=
  match a, b with
  | false3, _ | _, false3 => false3
  | true3, true3 => true3
  | _, _ => unknown
  end.

Definition or3 (a b : truth) : truth :=
  match a, b with
  | true3, _ | _, true3 => true3
  | false3, false3 => false3
  | _, _ => unknown
  end.

Definition implies3 (a b : truth) : truth := or3 (not3 a) b.

Definition iff3 (a b : truth) : truth :=
  and3 (implies3 a b) (implies3 b a).

(** Exact comparison of two rationals. *)
Definition compare_num (op : comparison) (x y : Q) : bool :=
  match op with
  | LE => Qle_bool x y
  | LT => negb (Qle_bool y x)
  | GE => Qle_bool y x
  | GT => negb (Qle_bool x y)
  | EQ => Qeq_bool x y
  | NE => negb (Qeq_bool x y)
  end.

(** What a sub-expression denotes: a number, a truth value, an absent
    variable, or an ill-typed tree. *)
Inductive denotation : Type :=
| DNum (q : Q)
| DTruth (t : truth)
| DAbsent
| DError.

Definition of_value (v : value) : denotation :=
  match v with
  | VNum q => DNum q
  | VBool b => DTruth (of_bool b)
  end.

Definition as_truth (d : denotation) : option truth :=
  match d with
  | DTruth t => Some t
  | DAbsent => Some unknown
  | DNum _ | DError => None
  end.

Definition connective1 (f : truth -> truth) (d : denotation) : denotation :=
  match as_truth d with
  | Some t => DTruth (f t)
  | None => DError
  end.

Definition connective2 (f : truth -> truth -> truth) (d1 d2 : denotation)
    : denotation :=
  match as_truth d1, as_truth d2 with
  | Some t1, Some t2 => DTruth (f t1 t2)
  | _, _ => DError
  end.

Definition compare (op : comparison) (d1 d2 : denotation) : denotation :=
  match d1, d2 with
  | DError, _ | _, DError => DError
  | DAbsent, _ | _, DAbsent => DTruth unknown
  | DNum x, DNum y => DTruth (of_bool (compare_num op x y))
  | DTruth x, DTruth y =>
      match op with
      | EQ => DTruth (iff3 x y)
      | NE => DTruth (not3 (iff3 x y))
      | _ => DError
      end
  | _, _ => DError
  end.

Fixpoint denote (a : ExtractedAssignment) (e : LogicalExpression) : denotation :=
  match e with
  | AND e1 e2 => connective2 and3 (denote a e1) (denote a e2)
  | OR e1 e2 => connective2 or3 (denote a e1) (denote a e2)
  | NOT e1 => connective1 not3 (denote a e1)
  | IMPLIES e1 e2 => connective2 implies3 (denote a e1) (denote a e2)
  | COMPARE op e1 e2 => compare op (denote a e1) (denote a e2)
  | VAR x =>
      match a !! x with
      | Some v => of_value v
      | None => DAbsent
      end
  | LITERAL v => of_value v
  end.

(** The truth value of a constraint's formula; [None] is the
    [InternalEvaluationError] of an ill-typed tree. *)
Definition truth_of (a : ExtractedAssignment) (e : LogicalExpression)
    : option truth :=
  as_truth (denote a e).

Fixpoint vars_of (e : LogicalExpression) : list string :=
  match e with
  | AND e1 e2 | OR e1 e2 | IMPLIES e1 e2 | COMPARE _ e1 e2 =>
      vars_of e1 ++ vars_of e2
  | NOT e1 => vars_of e1
  | VAR x => [x]
  | LITERAL _ => []
  end.

Definition variables_of (e : LogicalExpression) : list string :=
  remove_dups (vars_of e).

Definition absent_in (a : ExtractedAssignment) (x : string) : bool :=
  match a !! x with Some _ => false | None => true end.

(** Modelled from the spec: the result objects of section 3 and the
    evaluation engine of section 4.3. *)
Module Violation.
Record t : Type :=
  { constraint_id : string;
    category : string;
    description : string;
    error_message : string;
    citation : string;
    assignment_snapshot : list (string * option value) }.
End Violation.

Inductive flag : Type := evaluated_with_missing_data | evaluation_failed.

Module ProofRecord.
Record t : Type :=
  { constraint_id : string;
    truth_value : truth;
    variables_used : list string;
    missing_variables : list string;
    flagged : option flag }.
End ProofRecord.

Abbreviation ProofTrace := (list ProofRecord.t).

Module Evaluation.
Record t : Type :=
  { verified : bool;
    violations : list Violation.t;
    proof : ProofTrace }.
End Evaluation.

(** A constraint is violated when its formula is definitely false. *)
Definition is_violated (a : ExtractedAssignment) (c : Constraint.t) : bool :=
  match truth_of a (Constraint.formula c) with
  | Some false3 => true
  | _ => false
  end.

Definition violation_of (a : ExtractedAssignment) (c : Constraint.t)
    : Violation.t :=
  {| Violation.constraint_id := Constraint.id c;
     Violation.category := Constraint.category c;
     Violation.description := Constraint.description c;
     Violation.error_message := Constraint.error_message c;
     Violation.citation := Constraint.citation c;
     Violation.assignment_snapshot :=
       map (fun x => (x, a !! x)) (variables_of (Constraint.formula c)) |}.

Definition record_of (a : ExtractedAssignment) (c : Constraint.t)
    : ProofRecord.t :=
  let used := variables_of (Constraint.formula c) in
  let missing := List.filter (absent_in a) used in
  match truth_of a (Constraint.formula c) with
  | Some t =>
      {| ProofRecord.constraint_id := Constraint.id c;
         ProofRecord.truth_value := t;
         ProofRecord.variables_used := used;
         ProofRecord.missing_variables := missing;
         ProofRecord.flagged :=
           match t with
           | unknown => Some evaluated_with_missing_data
           | _ => None
           end |}
  | None =>
      {| ProofRecord.constraint_id := Constraint.id c;
         ProofRecord.truth_value := unknown;
         ProofRecord.variables_used := used;
         ProofRecord.missing_variables := missing;
         ProofRecord.flagged := Some evaluation_failed |}
  end.

Definition is_empty {A} (l : list A) : bool :=
  match l with [] => true | _ :: _ => false end.

Definition evaluate (a : ExtractedAssignment) (constraints : list Constraint.t)
    : Evaluation.t :=
  let violations := map (violation_of a) (List.filter (is_violated a) constraints) in
  {| Evaluation.verified := is_empty violations;
     Evaluation.violations := violations;
     Evaluation.proof := map (record_of a) constraints |}.

(** Modelled from the spec: the extraction engine of section 4.2, which
    [LLMParser.parse] performs. *)
Definition digit_of (c : ascii) : option Z :=
  if Document.is_digit c then Some (Z.of_nat (nat_of_ascii c - 48)) else None.

Fixpoint parse_digits (s : string) (acc : Z) : option Z :=
  match s with
  | EmptyString => Some acc
  | String c s' =>
      match digit_of c with
      | Some d => parse_digits s' (10 * acc + d)
      | None => None
      end
  end.

Definition parse_int (s : string) : option Z :=
  match s with
  | EmptyString => None
  | _ => parse_digits s 0
  end.

Fixpoint split_point (s : string) : string * option string :=
  match s with
  | EmptyString => (EmptyString, None)
  | String c s' =>
      if Ascii.eqb c "."%char then (EmptyString, Some s')
      else let '(whole, frac) := split_point s' in (String c whole, frac)
  end.

Definition parse_decimal (s : string) : option Q :=
  match split_point s with
  | (whole, None) => (fun n => inject_Z n) <$> parse_int whole
  | (whole, Some frac) =>
      match parse_int whole, parse_digits frac 0 with
      | Some n, Some f =>
          let scale := Z.pow 10 (Z.of_nat (String.length frac)) in
          Some (Qmake (n * scale + f) (Z.to_pos scale))
      | _, _ => None
      end
  end.

Definition lower_ascii (c : ascii) : ascii :=
  let n := nat_of_ascii c in
  if (65 <=? n)%nat && (n <=? 90)%nat then ascii_of_nat (n + 32) else c.

Fixpoint lower (s : string) : string :=
  match s with
  | EmptyString => EmptyString
  | String c s' => String (lower_ascii c) (lower s')
  end.

Fixpoint strip (drop : ascii -> bool) (s : string) : string :=
  match s with
  | EmptyString => EmptyString
  | String c s' => if drop c then strip drop s' else String c (strip drop s')
  end.

Fixpoint last_char (s : string) : option ascii :=
  match s with
  | EmptyString => None
  | String c EmptyString => Some c
  | String _ s' => last_char s'
  end.

Definition ends_with_k (s : string) : bool :=
  match last_char s with
  | Some c => Ascii.eqb (lower_ascii c) "k"%char
  | None => false
  end.

Definition is_money_mark (c : ascii) : bool :=
  Ascii.eqb c "$"%char || Ascii.eqb c ","%char.

Record Match : Type :=
  { matched : string;     (* the text the whole pattern matched *)
    captured : string }.  (* the text of its capture group *)

(** The coercion of a match per type. For [money] the multiplier test is
    made on the matched text. *)
Definition coerce (type : coercion) (m : Match) : option value :=
  match type with
  | CInt => (fun n => VNum (inject_Z n)) <$> parse_int (captured m)
  | CReal => VNum <$> parse_decimal (captured m)
  | CMoney =>
      (fun q => VNum (if ends_with_k (matched m) then q * 1000 else q)%Q)
        <$> parse_decimal (strip is_money_mark (captured m))
  end.

Module VerificationResult.
Record t : Type :=
  { verified : bool;
    violations : list Violation.t;
    proof : ProofTrace;
    execution_time_ms : Z }.
End VerificationResult.

(** The wall clock: the readings still to come, in milliseconds. *)
Definition Clock : Type := list Z.

Definition now (k : Clock) : Z * Clock :=
  match k with
  | [] => (0, [])
  | t :: k' => (t, k')
  end.

Section Extraction.

(** The first match of a pattern in a text, letter case ignored; the
    pattern language itself is that of Python's [re] module. *)
Variable search : string -> string -> option Match.

Definition extract_one (text : string) (rule : ExtractorRule) : option value :=
  match rule with
  | Pattern type pattern => search pattern text ≫= coerce type
  | Keywords keywords =>
      Some (VBool (existsb (fun k => Py.str_contains (lower k) (lower text))
                           keywords))
  end.

Definition extract (text : string) (extractors : list (string * ExtractorRule))
    : ExtractedAssignment :=
  fold_left
    (fun acc entry =>
       match extract_one text (snd entry) with
       | Some v => <[fst entry := v]> acc
       | None => acc
       end)
    extractors ∅.

(** Modelled from the spec: the orchestrator of section 4.4. The
    ontology it receives is the validated in-memory model, so the
    validation step has nothing left to reject. *)
Definition verify (k : Clock) (text : string) (ontology : Ontology.t)
    : VerificationResult.t * Clock :=
  let '(start, k1) := now k in
  let assignment := extract text (Ontology.extractors ontology) in
  let outcome := evaluate assignment (Ontology.constraints ontology) in
  let '(stop, k2) := now k1 in
  ({| VerificationResult.verified := Evaluation.verified outcome;
      VerificationResult.violations := Evaluation.violations outcome;
      VerificationResult.proof := Evaluation.proof outcome;
      VerificationResult.execution_time_ms := stop - start |}, k2).

End Extraction.

(** Modelled from the spec: the built-in ontology in the typed model. The
    formula trees are the ones [formula_readable] writes out, see
    [render]. *)
Definition num (n : Z) : LogicalExpression := LITERAL (VNum (inject_Z n)).

Definition ATR_QM_DTI : Constraint.t :=
  {| Constraint.id := "ATR_QM_DTI";
     Constraint.category := "ATR/QM";
     Constraint.description := "Debt-to-income ratio requirements";
     Constraint.formula :=
       OR (COMPARE LE (VAR "dti") (num 43))
          (COMPARE GE (VAR "compensating_factors") (num 2));
     Constraint.variables := [("dti", TReal); ("compensating_factors", TInt)];
     Constraint.error_message :=
       "DTI exceeds 43% without sufficient compensating factors";
     Constraint.citation := "12 CFR § 1026.43(c)" |}.

Definition HOEPA_HIGH_COST : Constraint.t :=
  {| Constraint.id := "HOEPA_HIGH_COST";
     Constraint.category := "HOEPA";
     Constraint.description := "High-cost mortgage counseling requirement";
     Constraint.formula :=
       OR (COMPARE LT (VAR "fee_percentage") (num 8))
          (VAR "counseling_disclosed");
     Constraint.variables :=
       [("fee_percentage", TReal); ("counseling_disclosed", TBool)];
     Constraint.error_message :=
       "HOEPA triggered - counseling disclosure required";
     Constraint.citation := "12 CFR § 1026.32" |}.

Definition UDAAP_NO_GUARANTEES : Constraint.t :=
  {| Constraint.id := "UDAAP_NO_GUARANTEES";
     Constraint.category := "UDAAP";
     Constraint.description := "Prohibition on guarantee language";
     Constraint.formula := NOT (AND (VAR "has_guarantee") (VAR "has_approval"));
     Constraint.variables := [("has_guarantee", TBool); ("has_approval", TBool)];
     Constraint.error_message := "Cannot guarantee approval";
     Constraint.citation := "12 CFR § 1036.3" |}.

Definition HPML_ESCROW : Constraint.t :=
  {| Constraint.id := "HPML_ESCROW";
     Constraint.category := "Escrow";
     Constraint.description := "Escrow requirements based on FICO";
     Constraint.formula :=
       OR (COMPARE GE (VAR "credit_score") (num 620))
          (NOT (VAR "escrow_waived"));
     Constraint.variables := [("credit_score", TInt); ("escrow_waived", TBool)];
     Constraint.error_message := "Cannot waive escrow with FICO < 620";
     Constraint.citation := "12 CFR § 1026.35(b)" |}.

Definition REG_B_ADVERSE : Constraint.t :=
  {| Constraint.id := "REG_B_ADVERSE";
     Constraint.category := "Regulation B";
     Constraint.description := "Adverse action disclosure requirements";
     Constraint.formula := IMPLIES (VAR "is_denial") (VAR "has_specific_reason");
     Constraint.variables :=
       [("is_denial", TBool); ("has_specific_reason", TBool)];
     Constraint.error_message := "Must disclose specific denial reason";
     Constraint.citation := "12 CFR § 1002.9" |}.

Definition dti_rule : ExtractorRule :=
  Pattern CReal "dti[:\s~]*(\d+(?:\.\d+)?)".

Definition fees_rule : ExtractorRule :=
  Pattern CMoney "\$?([\d,]+)k?\s*(?:fees?|costs?)".

Definition default_ontology : Ontology.t :=
  {| Ontology.name := "mortgage-compliance-v1";
     Ontology.version := "1.0.0";
     Ontology.description := "U.S. Mortgage Compliance - Core constraints";
     Ontology.constraints :=
       [ATR_QM_DTI; HOEPA_HIGH_COST; UDAAP_NO_GUARANTEES; HPML_ESCROW;
        REG_B_ADVERSE];
     Ontology.extractors :=
       [ ("dti", dti_rule);
         ("credit_score", Pattern CInt "(?:fico|credit score)[:\s]*(\d{3})");
         ("fees", fees_rule);
         ("loan_amount", Pattern CMoney "\$?([\d,]+)k?\s*(?:loan|mortgage)");
         ("has_guarantee", Keywords ["guaranteed"; "100%"; "definitely"]);
         ("has_approval", Keywords ["approved"; "approve"]);
         ("counseling_disclosed", Keywords ["counseling"]);
         ("escrow_waived",
           Keywords ["escrow waived"; "waive escrow"; "skip escrow"]);
         ("is_denial", Keywords ["denied"; "cannot approve"]);
         ("has_specific_reason",
           Keywords ["credit"; "income"; "dti"; "debt"; "score"]) ] |}.

(** Writing the typed model back as the document the loader holds. *)
Definition render_value (v : value) : string :=
  match v with
  | VBool true => "true"
  | VBool false => "false"
  | VNum q =>
      match Qden q with
      | xH => pretty (Qnum q)
      | d => pretty (Qnum q) +:+ "/" +:+ pretty (Zpos d)
      end
  end.

Definition render_op (op : comparison) : string :=
  match op with
  | LE => "≤" | LT => "<" | GE => "≥" | GT => ">" | EQ => "=" | NE => "≠"
  end.

Definition parens (nested : bool) (s : string) : string :=
  if nested then "(" +:+ s +:+ ")" else s.

Fixpoint render_at (nested : bool) (e : LogicalExpression) : string :=
  match e with
  | AND a b => parens nested (render_at true a +:+ " ∧ " +:+ render_at true b)
  | OR a b => parens nested (render_at true a +:+ " ∨ " +:+ render_at true b)
  | IMPLIES a b =>
      parens nested (render_at true a +:+ " → " +:+ render_at true b)
  | COMPARE op a b =>
      parens nested
        (render_at true a +:+ " " +:+ render_op op +:+ " " +:+ render_at true b)
  | NOT a => "¬" +:+ render_at true a
  | VAR x => x
  | LITERAL v => render_value v
  end.

Definition render (e : LogicalExpression) : string := render_at false e.

Definition var_type_name (ty : var_type) : string :=
  match ty with
  | TInt => "int" | TReal => "real" | TBool => "bool" | TMoney => "money"
  end.

Definition coercion_name (ty : coercion) : string :=
  match ty with CInt => "int" | CReal => "float" | CMoney => "money" end.

Definition constraint_to_json (c : Constraint.t) : Py.json :=
  OntologyLoader.constraint
    (Constraint.id c) (Constraint.category c) (Constraint.description c)
    (render (Constraint.formula c))
    (map (fun d => OntologyLoader.variable (fst d) (var_type_name (snd d)))
         (Constraint.variables c))
    (Constraint.error_message c) (Constraint.citation c).

Definition rule_to_json (rule : ExtractorRule) : Py.json :=
  match rule with
  | Pattern ty pattern =>
      OntologyLoader.pattern_extractor (coercion_name ty) pattern
  | Keywords keywords => OntologyLoader.keyword_extractor keywords
  end.

Definition to_json (o : Ontology.t) : Py.json :=
  Py.JDict
    [("name", Py.JStr (Ontology.name o));
     ("version", Py.JStr (Ontology.version o));
     ("description", Py.JStr (Ontology.description o));
     ("constraints", Py.JList (map constraint_to_json (Ontology.constraints o)));
     ("extractors",
       Py.JDict (map (fun e => (fst e, rule_to_json (snd e)))
                     (Ontology.extractors o)))].

End Core.

(** ** Concrete loaders and documents used in examples *)

Module Fixtures.
Import Py OntologyLoader.

(** A process with no storage settings: the SDK constructor is never
    reached. *)
Definition no_sdk (connection : string) : result BlobServiceClient :=
  Raise (OtherException "Connection string is either blank or malformed.").

Definition offline : OntologyLoader.t := __init__ ∅ no_sdk None None.

(** A storage account in which every blob holds [data]. *)
Definition blob_store (data : string) : BlobServiceClient :=
  {| get_container_client := fun _ =>
       Return {| get_blob_client := fun _ =>
         Return {| download_blob :=
           Return {| readall := Return data |} |} |} |}.

Definition connected : OntologyLoader.t :=
  __init__ {[ "AZURE_STORAGE_CONNECTION_STRING" := "UseDevelopmentStorage=true" ]}
           (fun _ => Return (blob_store "custom-rules"))
           None None.

(** A storage account that holds no blob at all. *)
Definition empty_store : BlobServiceClient :=
  {| get_container_client := fun _ =>
       Return {| get_blob_client := fun _ =>
         Return {| download_blob := Raise ResourceNotFoundError |} |} |}.

Definition connected_empty : OntologyLoader.t :=
  __init__ ∅ (fun _ => Return empty_store) (Some "rules")
           (Some "UseDevelopmentStorage=true").

(** A stored document that lacks [extractors]. *)
Definition incomplete_document : json :=
  JDict [("name", JStr "custom-rules");
         ("version", JStr "2.0.0");
         ("constraints", JList [])].

Definition loads_incomplete (data : string) : result json :=
  if String.eqb data "custom-rules" then Return incomplete_document
  else Raise JSONDecodeError.

(** A pattern engine that finds nothing. *)
Definition no_match (pattern text : string) : option Core.Match := None.

End Fixtures.

(** ** function_app.py *)

Module FunctionApp.
Import Py.

(** An exception as the handler's [except] clauses see it: its class name
    ([type(e).__name__]), its text ([str(e)]) and whether it is a
    [ValueError] or one of its subclasses. Only [Exception]s are covered. *)
Record PyError : Type :=
  { class_name : string;
    message : string;
    is_value_error : bool }.

Inductive outcome (A : Type) : Type :=
| Done (a : A)
| Failed (e : PyError).
Arguments Done {A} a.
Arguments Failed {A} e.

Definition and_then {A B} (m : outcome A) (k : A -> outcome B) : outcome B :=
  match m with
  | Done a => k a
  | Failed e => Failed e
  end.

(** The request as the handler reads it: [req.method], [req.headers.get]
    and what [req.get_json()] does, which raises [ValueError] on a body that
    is not JSON. *)
Record HttpRequest : Type :=
  { method : string;
    header : string -> option string;
    get_json : outcome json }.

Record HttpResponse : Type :=
  { body : string;
    status_code : Z;
    headers : list (string * string) }.

Definition ALLOWED_ORIGINS : list string :=
  ["https://aare.ai";
   "https://www.aare.ai";
   "http://localhost:8000";
   "http://localhost:3000"].

Definition get_cors_headers (request : HttpRequest) : list (string * string) :=
  let origin := default "" (header request "Origin") in
  let allowed_origin :=
    if existsb (String.eqb origin) ALLOWED_ORIGINS then origin
    else hd "" ALLOWED_ORIGINS in
  [("Content-Type", "application/json");
   ("Access-Control-Allow-Origin", allowed_origin);
   ("Access-Control-Allow-Headers", "Content-Type,x-api-key,x-functions-key");
   ("Access-Control-Allow-Methods", "OPTIONS,POST")].

(** The ways a built-in operation of the handler fails on a value; the
    interpreter words the message. *)
Inductive failure : Type :=
| no_attribute_get (obj : json)
| key_missing (k : string)
| not_subscriptable (obj : json)
| no_len (obj : json).

(** What the handler takes from outside: the three [aare_core] components
    (their results are taken to be JSON-shaped values), [json.dumps], the
    identifier and the time stamp drawn for the response, and two facts of
    the interpreter. *)
Record Collaborators : Type :=
  { ontology_loader_load : json -> outcome json;
    llm_parser_parse : json -> json -> outcome json;
    smt_verifier_verify : json -> json -> outcome json;
    json_dumps : json -> string;
    uuid4 : string;
    utcnow_isoformat : string;
    float_is_zero : string -> bool;
    describe : failure -> string }.

Definition raise_builtin (w : Collaborators) (class : string) (f : failure)
    {A} : outcome A :=
  Failed {| class_name := class; message := describe w f; is_value_error := false |}.

(** [obj.get(k, fallback)]: only a dict has the method. *)
Definition get (w : Collaborators) (obj : json) (k : string) (fallback : json)
    : outcome json :=
  match obj with
  | JDict items => Done (default fallback (dict_get k items))
  | _ => raise_builtin w "AttributeError" (no_attribute_get obj)
  end.

(** [obj[k]] for a [str] key. *)
Definition getitem (w : Collaborators) (obj : json) (k : string) : outcome json :=
  match obj with
  | JDict items =>
      match dict_get k items with
      | Some v => Done v
      | None => raise_builtin w "KeyError" (key_missing k)
      end
  | _ => raise_builtin w "TypeError" (not_subscriptable obj)
  end.

(** The number of characters of a [str] held as UTF-8. *)
Fixpoint code_points (s : string) : nat :=
  match s with
  | EmptyString => 0
  | String c s' =>
      let n := nat_of_ascii c in
      if (128 <=? n)%nat && (n <? 192)%nat then code_points s'
      else S (code_points s')
  end.

Definition len (w : Collaborators) (obj : json) : outcome Z :=
  match obj with
  | JDict items => Done (Z.of_nat (length items))
  | JList items => Done (Z.of_nat (length items))
  | JStr s => Done (Z.of_nat (code_points s))
  | _ => raise_builtin w "TypeError" (no_len obj)
  end.

(** Truth value of an object, as [not llm_output] tests it. *)
Definition truthy (w : Collaborators) (obj : json) : bool :=
  match obj with
  | JNone => false
  | JBool b => b
  | JInt n => negb (n =? 0)
  | JFloat literal => negb (float_is_zero w literal)
  | JStr s => negb (String.eqb s "")
  | JList items => negb (Core.is_empty items)
  | JDict items => negb (Core.is_empty items)
  end.

Definition respond (w : Collaborators) (content : json) (status : Z)
    (cors_headers : list (string * string)) : HttpResponse :=
  {| body := json_dumps w content; status_code := status; headers := cors_headers |}.

(** The dict literal [response_body]; its entries are evaluated in order. *)
Definition response_body (w : Collaborators)
    (ontology extracted_data verification_result : json) : outcome json :=
  and_then (getitem w verification_result "verified") (fun verified =>
  and_then (getitem w verification_result "violations") (fun violations =>
  and_then (getitem w ontology "name") (fun name =>
  and_then (getitem w ontology "version") (fun version =>
  and_then (getitem w ontology "constraints") (fun constraints =>
  and_then (len w constraints) (fun constraints_checked =>
  and_then (getitem w verification_result "proof") (fun proof =>
  and_then (getitem w verification_result "execution_time_ms") (fun execution_time_ms =>
  Done (JDict
    [("verified", verified);
     ("violations", violations);
     ("parsed_data", extracted_data);
     ("ontology",
       JDict [("name", name);
              ("version", version);
              ("constraints_checked", JInt constraints_checked)]);
     ("proof", proof);
     ("solver", JStr "Constraint Logic");
     ("verification_id", JStr (uuid4 w));
     ("execution_time_ms", execution_time_ms);
     ("timestamp", JStr (utcnow_isoformat w))]))))))))).

(** The [try] block of [verify]. *)
Definition try_block (w : Collaborators) (req : HttpRequest)
    (cors_headers : list (string * string)) : outcome HttpResponse :=
  and_then (get_json req) (fun req_body =>
  and_then (get w req_body "llm_output" (JStr "")) (fun llm_output =>
  and_then (get w req_body "ontology" (JStr "mortgage-compliance-v1"))
    (fun ontology_name =>
  if negb (truthy w llm_output)
  then Done (respond w (JDict [("error", JStr "llm_output is required")])
                     400 cors_headers)
  else
    and_then (ontology_loader_load w ontology_name) (fun ontology =>
    and_then (llm_parser_parse w llm_output ontology) (fun extracted_data =>
    and_then (smt_verifier_verify w extracted_data ontology)
      (fun verification_result =>
    and_then (response_body w ontology extracted_data verification_result)
      (fun content =>
    Done (respond w content 200 cors_headers)))))))).

(** The HTTP trigger [verify]; the logging calls are left out. *)
Definition verify (w : Collaborators) (req : HttpRequest) : HttpResponse :=
  let cors_headers := get_cors_headers req in
  if String.eqb (method req) "OPTIONS"
  then {| body := ""; status_code := 200; headers := cors_headers |}
  else
    match try_block w req cors_headers with
    | Done response => response
    | Failed e =>
        if is_value_error e
        then respond w (JDict [("error", JStr "Invalid JSON in request body")])
                     400 cors_headers
        else respond w (JDict [("error", JStr (message e));
                               ("type", JStr (class_name e))])
                     500 cors_headers
    end.

End FunctionApp.

(** ** Further concrete data used in examples *)

Module Samples.
Import Py OntologyLoader.

(** A stored document that has the four required fields. *)
Definition complete_document : json :=
  JDict [("name", JStr "custom-rules");
         ("version", JStr "2.0.0");
         ("constraints", JList []);
         ("extractors", JDict [])].

Definition loads_complete (data : string) : result json :=
  Return complete_document.


(** Listings of a container. *)
Definition lists (names : list string) (container : ContainerClient)
    : result (list string) :=
  Return names.

Definition listing_fails (container : ContainerClient) : result (list string) :=
  Raise (OtherException "service unavailable").

(** A full cache of one loader: ten names, most recent first. *)
Definition ten_names : list string :=
  ["j"; "i"; "h"; "g"; "f"; "e"; "d"; "c"; "b"; "a"].

Definition full_cache : cache :=
  map (fun n => ((0%nat, n), complete_document)) ten_names.

End Samples.

Module Requests.
Import Py FunctionApp.

(** A serialiser without escaping, enough for the examples. *)
Definition quote : string := String (ascii_of_nat 34) EmptyString.

Fixpoint join (parts : list string) : string :=
  match parts with
  | [] => EmptyString
  | [part] => part
  | part :: rest => part +:+ ", " +:+ join rest
  end.

Fixpoint dumps (j : json) : string :=
  match j with
  | JNone => "null"
  | JBool true => "true"
  | JBool false => "false"
  | JInt n => pretty n
  | JFloat literal => literal
  | JStr s => quote +:+ s +:+ quote
  | JList items => "[" +:+ join (map dumps items) +:+ "]"
  | JDict items =>
      "{" +:+ join (map (fun kv => quote +:+ fst kv +:+ quote +:+ ": "
                                   +:+ dumps (snd kv)) items) +:+ "}"
  end.

Definition value_error (text : string) : PyError :=
  {| class_name := "ValueError"; message := text; is_value_error := true |}.

Definition runtime_error (text : string) : PyError :=
  {| class_name := "RuntimeError"; message := text; is_value_error := false |}.

(** Components that answer: the loader with the built-in ontology, the
    parser with one extracted variable, the verifier with a clean result. *)
Definition working : Collaborators :=
  {| ontology_loader_load := fun _ =>
       Done (OntologyLoader._get_default_ontology Fixtures.offline);
     llm_parser_parse := fun _ _ => Done (JDict [("has_approval", JBool true)]);
     smt_verifier_verify := fun _ _ =>
       Done (JDict [("verified", JBool true);
                    ("violations", JList []);
                    ("proof", JDict []);
                    ("execution_time_ms", JInt 3)]);
     json_dumps := dumps;
     uuid4 := "0f8fad5b-d9cb-469f-a165-70867728950e";
     utcnow_isoformat := "2025-01-01T00:00:00";
     float_is_zero := fun literal => String.eqb literal "0.0";
     describe := fun _ => "unsupported operation" |}.

(** The same components with a verifier that raises. *)
Definition verifier_raises (e : PyError) : Collaborators :=
  {| ontology_loader_load := ontology_loader_load working;
     llm_parser_parse := llm_parser_parse working;
     smt_verifier_verify := fun _ _ => Failed e;
     json_dumps := dumps;
     uuid4 := uuid4 working;
     utcnow_isoformat := utcnow_isoformat working;
     float_is_zero := float_is_zero working;
     describe := describe working |}.

Definition post (origin : option string) (content : outcome json) : HttpRequest :=
  {| method := "POST";
     header := fun name => if String.eqb name "Origin" then origin else None;
     get_json := content |}.

Definition approval_request : list (string * json) :=
  [("llm_output", JStr "Your loan is approved.")].

End Requests.

(** * Properties *)

Section LoaderFacts.
Import Py OntologyLoader.


Lemma load_wrapped_no_client json_loads (self : t) (ontology_name : string) :
  blob_service_client self = None ->
  load_wrapped json_loads self ontology_name = Return (_get_default_ontology self).
Proof. intros H. unfold load_wrapped. rewrite H. reflexivity. Qed.

Lemma load_wrapped_fetch_raises json_loads (self : t) client (ontology_name : string) :
  blob_service_client self = Some client ->
  raises (fetch json_loads self client ontology_name) ->
  load_wrapped json_loads self ontology_name = Return (_get_default_ontology self).
Proof.
  intros H Hr. unfold load_wrapped. rewrite H.
  destruct (fetch json_loads self client ontology_name) as [o|e]; [destruct Hr|].
  destruct e; reflexivity.
Qed.

Lemma load_wrapped_total json_loads (self : t) (ontology_name : string) :
  exists ontology, load_wrapped json_loads self ontology_name = Return ontology.
Proof.
  unfold load_wrapped. destruct (blob_service_client self) as [client|]; [|eauto].
  destruct (fetch json_loads self client ontology_name) as [o|e]; [eauto|].
  destruct e; eauto.
Qed.

Lemma init_empty_connection environ sdk (container connection : option string) :
  connection_string (__init__ environ sdk container connection) = "" ->
  blob_service_client (__init__ environ sdk container connection) = None.
Proof. unfold __init__. simpl. intros ->. reflexivity. Qed.

Lemma cache_find_In (k : key) (c : cache) (ontology : json) :
  cache_find k c = Some ontology -> exists k', In (k', ontology) c.
Proof.
  induction c as [|[k' v] c IH]; simpl; [discriminate|].
  destruct (key_eqb k k').
  - intros [= ->]. exists k'. now left.
  - intros H. destruct (IH H) as [k'' Hin]. exists k''. now right.
Qed.

(** Starting from a cache that holds only the default ontology, a loader
    without storage client answers every call with the default ontology. *)
Lemma load_each_default json_loads (self_id : nat) (self : t)
    (names : list string) (c : cache) :
  blob_service_client self = None ->
  Forall (fun entry => snd entry = _get_default_ontology self) c ->
  Forall (fun r => r = Return (_get_default_ontology self))
         (fst (load_each json_loads self_id self names c)).
Proof.
  intros Hnone. revert c.
  induction names as [|n names IH]; intros c Hc; simpl; [constructor|].
  unfold load.
  destruct (cache_find (self_id, n) c) as [o|] eqn:Hfind.
  - destruct (cache_find_In _ _ _ Hfind) as [k' Hin].
    rewrite List.Forall_forall in Hc. pose proof (Hc _ Hin) as Ho. simpl in Ho. subst o.
    specialize (IH (((self_id, n), _get_default_ontology self)
                      :: cache_remove (self_id, n) c)).
    destruct (load_each json_loads self_id self names _) as [rs c2].
    simpl. constructor; [reflexivity|].
    apply IH. constructor; [reflexivity|].
    apply List.Forall_forall. intros entry Hentry.
    apply Hc. unfold cache_remove in Hentry.
    apply filter_In in Hentry. tauto.
  - rewrite (load_wrapped_no_client json_loads self n Hnone).
    specialize (IH (((self_id, n), _get_default_ontology self)
                      :: firstn (maxsize - 1) c)).
    destruct (load_each json_loads self_id self names _) as [rs c2].
    simpl. constructor; [reflexivity|].
    apply IH. constructor; [reflexivity|].
    apply List.Forall_forall. intros entry Hentry.
    rewrite List.Forall_forall in Hc. apply Hc.
    rewrite <- (firstn_skipn (maxsize - 1) c). apply in_or_app. now left.
Qed.

End LoaderFacts.


Example validate_missing_extractors :
  OntologyLoader._validate_ontology Fixtures.incomplete_document
  = Py.Raise (Py.ValueError "Invalid ontology: missing extractors").
Proof. reflexivity. Qed.

(** C4. The built-in ontology needs no input (it is the same for every
    loader, and a loader without storage returns it), has version 1.0.0,
    five constraints and ten extractors under distinct keys, and passes
    validation. *)
Theorem default_ontology_constructible (self : OntologyLoader.t) :
  let d := OntologyLoader._get_default_ontology self in
  (forall other, OntologyLoader._get_default_ontology other = d)
  /\ Document.field "version" d = Some (Py.JStr "1.0.0")
  /\ length (Document.list_field "constraints" d) = 5%nat
  /\ length (Document.dict_field "extractors" d) = 10%nat
  /\ NoDup (Document.extractor_keys d)
  /\ OntologyLoader._validate_ontology d = Py.Return d.
Proof.
  repeat split.
  apply (bool_decide_unpack _). vm_compute. reflexivity.
Qed.

(** C1, as stated, fails: [compensating_factors] is referenced by the formula
    of [ATR_QM_DTI] and is not a key of the extractors mapping. *)
Lemma default_variable_without_extractor :
  ~ (forall x : string,
       In x (Document.referenced_variables
               (OntologyLoader._get_default_ontology Fixtures.offline)) ->
       Document.has_extractor
         (OntologyLoader._get_default_ontology Fixtures.offline) x = true).
Proof.
  intros H. specialize (H "compensating_factors").
  assert (Hin : In "compensating_factors"
                  (Document.referenced_variables
                     (OntologyLoader._get_default_ontology Fixtures.offline))).
  { vm_compute. tauto. }
  apply H in Hin. vm_compute in Hin. discriminate.
Qed.

(** C1, amended. The formulas of the built-in ontology reference the ten
    variables listed, which are also the variables the constraints declare;
    all of them except [compensating_factors] and [fee_percentage] are keys
    of the extractors mapping, whose two remaining keys, [fees] and
    [loan_amount], are referenced by no formula. *)
Theorem default_formula_variables_and_extractors (self : OntologyLoader.t) :
  let d := OntologyLoader._get_default_ontology self in
  Document.referenced_variables d
  = ["dti"; "compensating_factors"; "fee_percentage"; "counseling_disclosed";
     "has_guarantee"; "has_approval"; "credit_score"; "escrow_waived";
     "is_denial"; "has_specific_reason"]
  /\ map Document.declared_variables (Document.list_field "constraints" d)
     = map Document.formula_variables (Document.list_field "constraints" d)
  /\ List.filter (fun x => negb (Document.has_extractor d x))
                 (Document.referenced_variables d)
     = ["compensating_factors"; "fee_percentage"]
  /\ List.filter (fun k => negb (existsb (String.eqb k)
                                         (Document.referenced_variables d)))
                 (Document.extractor_keys d)
     = ["fees"; "loan_amount"].
Proof. repeat split. Qed.

(** C2, as stated, fails: a stored document without [extractors] fails
    validation, and [load] returns normally instead of raising. *)
Lemma load_hides_schema_error :
  ~ (forall (json_loads : string -> Py.result Py.json) (self : OntologyLoader.t)
            (client : OntologyLoader.BlobServiceClient) (ontology_name : string)
            (document : Py.json) (e : Py.exn),
       OntologyLoader.blob_service_client self = Some client ->
       OntologyLoader.download json_loads self client ontology_name
       = Py.Return document ->
       OntologyLoader._validate_ontology document = Py.Raise e ->
       OntologyLoader.load_wrapped json_loads self ontology_name = Py.Raise e).
Proof.
  intros H.
  specialize (H Fixtures.loads_incomplete Fixtures.connected
                (Fixtures.blob_store "custom-rules") "custom-rules-v2"
                Fixtures.incomplete_document
                (Py.ValueError "Invalid ontology: missing extractors")
                eq_refl eq_refl eq_refl).
  vm_compute in H. discriminate.
Qed.

(** C2, amended. Whenever the document fetched from storage fails
    validation, [_validate_ontology] raises, [load] catches the error and
    returns the built-in default ontology: the error does not leave
    [load]. *)
Theorem load_defaults_on_schema_error
    (json_loads : string -> Py.result Py.json) (self : OntologyLoader.t)
    (client : OntologyLoader.BlobServiceClient) (ontology_name : string)
    (document : Py.json) (e : Py.exn) :
  OntologyLoader.blob_service_client self = Some client ->
  OntologyLoader.download json_loads self client ontology_name = Py.Return document ->
  OntologyLoader._validate_ontology document = Py.Raise e ->
  OntologyLoader.load_wrapped json_loads self ontology_name
  = Py.Return (OntologyLoader._get_default_ontology self).
Proof.
  intros Hc Hd Hv.
  apply load_wrapped_fetch_raises with (client := client); [exact Hc|].
  unfold OntologyLoader.fetch. rewrite Hd. simpl. rewrite Hv. exact I.
Qed.

Lemma load_defaults_on_schema_error_witness :
  OntologyLoader.load_wrapped Fixtures.loads_incomplete Fixtures.connected
                              "custom-rules-v2"
  = Py.Return (OntologyLoader._get_default_ontology Fixtures.connected).
Proof.
  apply (load_defaults_on_schema_error
           Fixtures.loads_incomplete Fixtures.connected
           (Fixtures.blob_store "custom-rules") "custom-rules-v2"
           Fixtures.incomplete_document
           (Py.ValueError "Invalid ontology: missing extractors")).
  - reflexivity.
  - reflexivity.
  - reflexivity.
Defined.

(** C10. A loader that has no storage client (in particular one built with
    an empty connection string), or whose attempt to fetch and validate the
    named document raises anything at all (an unknown name raises
    [ResourceNotFoundError]), returns the built-in default ontology: the
    wrapped function does, and so does a call through the cache that misses. *)
Theorem load_falls_back_to_default
    (environ : gmap string string)
    (sdk : string -> Py.result OntologyLoader.BlobServiceClient)
    (json_loads : string -> Py.result Py.json)
    (container connection : option string)
    (ontology_name : string) (self_id : nat) (c : OntologyLoader.cache) :
  let self := OntologyLoader.__init__ environ sdk container connection in
  OntologyLoader.connection_string self = ""
  \/ OntologyLoader.blob_service_client self = None
  \/ (exists client,
        OntologyLoader.blob_service_client self = Some client
        /\ Py.raises (OntologyLoader.fetch json_loads self client ontology_name)) ->
  OntologyLoader.load_wrapped json_loads self ontology_name
  = Py.Return (OntologyLoader._get_default_ontology self)
  /\ (OntologyLoader.cache_find (self_id, ontology_name) c = None ->
      fst (OntologyLoader.load json_loads self_id self ontology_name c)
      = Py.Return (OntologyLoader._get_default_ontology self)).
Proof.
  intros self H.
  assert (Hw : OntologyLoader.load_wrapped json_loads self ontology_name
               = Py.Return (OntologyLoader._get_default_ontology self)).
  { destruct H as [Hempty | [Hnone | [client [Hc Hr]]]].
    - apply load_wrapped_no_client. now apply init_empty_connection.
    - now apply load_wrapped_no_client.
    - now apply load_wrapped_fetch_raises with (client := client). }
  split; [exact Hw|].
  intros Hmiss. unfold OntologyLoader.load. rewrite Hmiss, Hw. reflexivity.
Qed.

Lemma load_falls_back_to_default_witness :
  OntologyLoader.load_wrapped Fixtures.loads_incomplete Fixtures.connected_empty
                              "unknown-rules"
  = Py.Return (OntologyLoader._get_default_ontology Fixtures.connected_empty)
  /\ (OntologyLoader.cache_find (0%nat, "unknown-rules") [] = None ->
      fst (OntologyLoader.load Fixtures.loads_incomplete 0 Fixtures.connected_empty
                               "unknown-rules" [])
      = Py.Return (OntologyLoader._get_default_ontology Fixtures.connected_empty)).
Proof.
  apply (load_falls_back_to_default
           ∅ (fun _ => Py.Return Fixtures.empty_store) Fixtures.loads_incomplete
           (Some "rules") (Some "UseDevelopmentStorage=true")
           "unknown-rules" 0%nat []).
  right. right. exists Fixtures.empty_store. split.
  - reflexivity.
  - simpl. exact I.
Defined.

Section CoreFacts.
Import Core.

Variable search : string -> string -> option Match.

Lemma extract_fold_other (text : string) (extractors : list (string * ExtractorRule))
    (acc : gmap string value) (x : string) :
  ~ In x (map fst extractors) ->
  fold_left
    (fun acc entry =>
       match extract_one search text (snd entry) with
       | Some v => <[fst entry := v]> acc
       | None => acc
       end) extractors acc !! x
  = acc !! x.
Proof.
  revert acc. induction extractors as [|[y rule] rest IH]; intros acc Hx; simpl in *.
  - reflexivity.
  - rewrite IH by tauto.
    destruct (extract_one search text rule); [|reflexivity].
    apply lookup_insert_ne. intros ->. tauto.
Qed.

Lemma extract_fold_entry (text : string) (extractors : list (string * ExtractorRule))
    (acc : gmap string value) (x : string) (rule : ExtractorRule) :
  List.NoDup (map fst extractors) ->
  In (x, rule) extractors ->
  fold_left
    (fun acc entry =>
       match extract_one search text (snd entry) with
       | Some v => <[fst entry := v]> acc
       | None => acc
       end) extractors acc !! x
  = match extract_one search text rule with
    | Some v => Some v
    | None => acc !! x
    end.
Proof.
  revert acc. induction extractors as [|[y r] rest IH]; intros acc Hnd Hin; simpl in *.
  - destruct Hin.
  - inversion Hnd as [|? ? Hy Hrest]; subst.
    destruct Hin as [[= -> ->] | Hin].
    + rewrite extract_fold_other by exact Hy.
      destruct (extract_one search text rule); [apply lookup_insert_eq | reflexivity].
    + rewrite (IH _ Hrest Hin).
      destruct (extract_one search text rule); [reflexivity|].
      destruct (extract_one search text r); [|reflexivity].
      apply lookup_insert_ne. intros ->.
      apply Hy. apply in_map_iff. exists (x, rule). auto.
Qed.

(** A variable without extractor is absent from every extracted assignment. *)
Lemma extract_no_rule (text : string) (extractors : list (string * ExtractorRule))
    (x : string) :
  ~ In x (map fst extractors) -> extract search text extractors !! x = None.
Proof. intros H. unfold extract. rewrite extract_fold_other by exact H. apply lookup_empty. Qed.

(** Under distinct keys each variable gets what its own rule yields. *)
Lemma extract_rule (text : string) (extractors : list (string * ExtractorRule))
    (x : string) (rule : ExtractorRule) :
  List.NoDup (map fst extractors) ->
  In (x, rule) extractors ->
  extract search text extractors !! x = extract_one search text rule.
Proof.
  intros Hnd Hin. unfold extract. rewrite (extract_fold_entry _ _ _ _ _ Hnd Hin).
  destruct (extract_one search text rule); [reflexivity | apply lookup_empty].
Qed.

Lemma default_extractor_keys_distinct :
  List.NoDup (map fst (Ontology.extractors default_ontology)).
Proof. apply NoDup_ListNoDup, (bool_decide_unpack _). vm_compute. reflexivity. Qed.

Lemma violation_origin (a : ExtractedAssignment) (constraints : list Constraint.t)
    (v : Violation.t) :
  In v (Evaluation.violations (evaluate a constraints)) ->
  exists c, In c constraints /\ is_violated a c = true /\ v = violation_of a c.
Proof.
  simpl. intros H. apply in_map_iff in H. destruct H as [c [<- Hc]].
  apply filter_In in Hc. exists c. tauto.
Qed.

Lemma is_violated_false3 (a : ExtractedAssignment) (c : Constraint.t) :
  is_violated a c = true <-> truth_of a (Constraint.formula c) = Some false3.
Proof.
  unfold is_violated.
  destruct (truth_of a (Constraint.formula c)) as [[]|]; split; congruence.
Qed.

(** The built-in constraint with a given id. *)
Lemma default_constraint_ATR_QM_DTI (c : Constraint.t) :
  In c (Ontology.constraints default_ontology) ->
  Constraint.id c = "ATR_QM_DTI" -> c = ATR_QM_DTI.
Proof.
  simpl. intros [<- | [<- | [<- | [<- | [<- | []]]]]]; simpl; intros H;
    (reflexivity || discriminate H).
Qed.

Lemma not_violated_no_violation (a : ExtractedAssignment) :
  is_violated a ATR_QM_DTI = false ->
  ~ In "ATR_QM_DTI"
       (map Violation.constraint_id
            (Evaluation.violations
               (evaluate a (Ontology.constraints default_ontology)))).
Proof.
  intros Hnv Hin. apply in_map_iff in Hin. destruct Hin as [v [Hid Hv]].
  apply violation_origin in Hv. destruct Hv as [c [Hc [Hviol ->]]].
  simpl in Hid. apply default_constraint_ATR_QM_DTI in Hid; [|exact Hc].
  subst c. congruence.
Qed.

Lemma verify_evaluate (k : Clock) (text : string) (ontology : Ontology.t) :
  let r := fst (verify search k text ontology) in
  let e := evaluate (extract search text (Ontology.extractors ontology))
                    (Ontology.constraints ontology) in
  VerificationResult.verified r = Evaluation.verified e
  /\ VerificationResult.violations r = Evaluation.violations e
  /\ VerificationResult.proof r = Evaluation.proof e.
Proof.
  unfold verify. destruct (now k) as [start k1]. destruct (now k1) as [stop k2].
  simpl. auto.
Qed.

Lemma verified_iff_none_false (a : ExtractedAssignment)
    (constraints : list Constraint.t) :
  Evaluation.verified (evaluate a constraints) = true
  <-> (forall c, In c constraints ->
                 truth_of a (Constraint.formula c) <> Some false3).
Proof.
  simpl. split.
  - intros H c Hc Hf. apply is_violated_false3 in Hf.
    assert (Hin : In c (List.filter (is_violated a) constraints))
      by (apply filter_In; auto).
    destruct (List.filter (is_violated a) constraints); [destruct Hin | discriminate H].
  - intros H.
    destruct (List.filter (is_violated a) constraints) as [|c rest] eqn:E; [reflexivity|].
    assert (Hin : In c (List.filter (is_violated a) constraints))
      by (rewrite E; now left).
    apply filter_In in Hin. destruct Hin as [Hc Hv].
    apply is_violated_false3 in Hv. destruct (H c Hc Hv).
Qed.

End CoreFacts.

(** C5. The result of [verify] is flagged verified exactly when its list of
    violations is empty, for every ontology, text and clock. *)
Theorem verified_iff_no_violations
    (search : string -> string -> option Core.Match) (k : Core.Clock)
    (text : string) (ontology : Core.Ontology.t) :
  Core.VerificationResult.verified (fst (Core.verify search k text ontology)) = true
  <-> Core.VerificationResult.violations (fst (Core.verify search k text ontology)) = [].
Proof.
  destruct (verify_evaluate search k text ontology) as [-> [-> _]].
  simpl.
  destruct (map _ _); simpl; split; intros H; (reflexivity || discriminate H).
Qed.

(** C6. When the [dti] extractor yields nothing on a text, [dti] is absent
    from the extracted assignment, [ATR_QM_DTI] evaluates to unknown, it is
    not among the violations of [verify] on the built-in ontology, and the
    proof trace holds its record with truth value unknown and [dti] among
    the missing variables. In general a violation comes only from a
    constraint whose formula is definitely false. *)
Theorem absent_dti_is_unknown_not_violation
    (search : string -> string -> option Core.Match) (k : Core.Clock)
    (text : string) :
  Core.extract_one search text Core.dti_rule = None ->
  let a := Core.extract search text (Core.Ontology.extractors Core.default_ontology) in
  let r := fst (Core.verify search k text Core.default_ontology) in
  a !! "dti" = None
  /\ Core.truth_of a (Core.Constraint.formula Core.ATR_QM_DTI) = Some Core.unknown
  /\ ~ In "ATR_QM_DTI"
          (map Core.Violation.constraint_id (Core.VerificationResult.violations r))
  /\ (exists record,
        In record (Core.VerificationResult.proof r)
        /\ Core.ProofRecord.constraint_id record = "ATR_QM_DTI"
        /\ Core.ProofRecord.truth_value record = Core.unknown
        /\ In "dti" (Core.ProofRecord.missing_variables record)
        /\ Core.ProofRecord.flagged record = Some Core.evaluated_with_missing_data)
  /\ (forall (a' : gmap string Core.value) (constraints : list Core.Constraint.t)
             (v : Core.Violation.t),
        In v (Core.Evaluation.violations (Core.evaluate a' constraints)) ->
        exists c, In c constraints
                  /\ Core.Constraint.id c = Core.Violation.constraint_id v
                  /\ Core.truth_of a' (Core.Constraint.formula c) = Some Core.false3).
Proof.
  intros Hnone a r.
  assert (Hdti : a !! "dti" = None).
  { unfold a. rewrite (extract_rule search text _ "dti" Core.dti_rule).
    - exact Hnone.
    - apply default_extractor_keys_distinct.
    - simpl. auto. }
  assert (Hcf : a !! "compensating_factors" = None).
  { unfold a. apply extract_no_rule. vm_compute. intuition discriminate. }
  assert (Htruth : Core.truth_of a (Core.Constraint.formula Core.ATR_QM_DTI)
                   = Some Core.unknown).
  { unfold Core.truth_of. simpl. rewrite Hdti, Hcf. reflexivity. }
  destruct (verify_evaluate search k text Core.default_ontology) as [_ [Hviol Hproof]].
  fold a in Hviol, Hproof. fold r in Hviol, Hproof.
  split; [exact Hdti|]. split; [exact Htruth|]. split; [|split].
  - rewrite Hviol. apply not_violated_no_violation.
    unfold Core.is_violated. rewrite Htruth. reflexivity.
  - exists (Core.record_of a Core.ATR_QM_DTI). rewrite Hproof. split.
    + simpl. auto.
    + unfold Core.record_of. rewrite Htruth. simpl.
      repeat split; try reflexivity.
      unfold Core.absent_in. rewrite Hdti. simpl. auto.
  - intros a' constraints v Hv.
    apply violation_origin in Hv. destruct Hv as [c [Hc [Hviolated ->]]].
    exists c. split; [exact Hc|]. split; [reflexivity|].
    now apply is_violated_false3.
Qed.

Lemma absent_dti_is_unknown_not_violation_witness :
  Core.extract_one Fixtures.no_match "Your loan is approved." Core.dti_rule = None
  /\ ~ In "ATR_QM_DTI"
          (map Core.Violation.constraint_id
               (Core.VerificationResult.violations
                  (fst (Core.verify Fixtures.no_match [0; 12]
                                    "Your loan is approved." Core.default_ontology)))).
Proof.
  split; [reflexivity|].
  exact (proj1 (proj2 (proj2
    (absent_dti_is_unknown_not_violation
       Fixtures.no_match [0; 12] "Your loan is approved." eq_refl)))).
Defined.

(** C8. An assignment in which [dti] equals 43 satisfies the comparison
    [dti ≤ 43] of [ATR_QM_DTI] under exact rational comparison; the constraint
    is not violated and is not reported, and with [compensating_factors]
    absent its formula is true. *)
Theorem dti_43_satisfies_bound (a : gmap string Core.value) (q : Q) :
  a !! "dti" = Some (Core.VNum q) ->
  (q == 43)%Q ->
  Core.denote a (Core.COMPARE Core.LE (Core.VAR "dti") (Core.num 43))
  = Core.DTruth Core.true3
  /\ Core.is_violated a Core.ATR_QM_DTI = false
  /\ ~ In "ATR_QM_DTI"
          (map Core.Violation.constraint_id
               (Core.Evaluation.violations
                  (Core.evaluate a (Core.Ontology.constraints Core.default_ontology))))
  /\ (a !! "compensating_factors" = None ->
      Core.truth_of a (Core.Constraint.formula Core.ATR_QM_DTI) = Some Core.true3).
Proof.
  intros Hdti Hq.
  assert (Hle : Qle_bool q (inject_Z 43) = true).
  { apply Qle_bool_iff. rewrite Hq. apply Qle_refl. }
  assert (Hcmp : Core.denote a (Core.COMPARE Core.LE (Core.VAR "dti") (Core.num 43))
                 = Core.DTruth Core.true3).
  { simpl. rewrite Hdti. simpl. rewrite Hle. reflexivity. }
  assert (Hnv : Core.is_violated a Core.ATR_QM_DTI = false).
  { unfold Core.is_violated, Core.truth_of. simpl. rewrite Hdti. simpl.
    rewrite Hle. simpl.
    destruct (a !! "compensating_factors") as [[q'|b]|]; reflexivity. }
  split; [exact Hcmp|]. split; [exact Hnv|]. split.
  - now apply not_violated_no_violation.
  - intros Hcf. unfold Core.truth_of. simpl. rewrite Hdti, Hcf. simpl.
    rewrite Hle. reflexivity.
Qed.

Lemma dti_43_satisfies_bound_witness :
  Core.is_violated {[ "dti" := Core.VNum (430 # 10) ]} Core.ATR_QM_DTI = false.
Proof.
  refine (proj1 (proj2 (dti_43_satisfies_bound
                          {[ "dti" := Core.VNum (430 # 10) ]} (430 # 10) _ _))).
  - reflexivity.
  - reflexivity.
Defined.


(** The money rule on two matches with capture group [450]: the multiplier
    applies when the matched text itself ends with the letter, and not when
    the letter is followed by further matched text. *)
Example money_multiplier_at_end_of_match :
  Core.coerce Core.CMoney {| Core.matched := "$450k"; Core.captured := "450" |}
  = Some (Core.VNum 450000)
  /\ Core.coerce Core.CMoney
       {| Core.matched := "$450k fees"; Core.captured := "450" |}
     = Some (Core.VNum 450)
  /\ Core.coerce Core.CMoney
       {| Core.matched := "$1,250,000 loan"; Core.captured := "1,250,000" |}
     = Some (Core.VNum 1250000).
Proof. repeat split. Qed.

(** The typed built-in ontology, written back as a document, is the dict
    that [_get_default_ontology] returns; in particular each formula tree
    renders as the constraint's [formula_readable]. *)
Lemma default_ontology_document (self : OntologyLoader.t) :
  Core.to_json Core.default_ontology = OntologyLoader._get_default_ontology self.
Proof. vm_compute. reflexivity. Qed.

(** * Further properties of the loader *)

Section ValidationFacts.
Import Py OntologyLoader.

Lemma contains_cases (field : string) (doc : json) :
  (exists b, contains field doc = Return b)
  \/ (exists msg, forall f, contains f doc = Raise (TypeError msg)).
Proof.
  destruct doc; simpl; eauto.
Qed.

Lemma check_fields_accepts (fields : list string) (doc : json) :
  check_fields fields doc = Return tt
  <-> List.Forall (fun f => contains f doc = Return true) fields.
Proof.
  induction fields as [|f fields IH]; simpl.
  - split; [constructor | reflexivity].
  - destruct (contains f doc) as [[|]|e] eqn:E; simpl.
    + rewrite IH. split.
      * intros H. constructor; [exact E | exact H].
      * intros H. now inversion H.
    + split; [discriminate | intros H; inversion H; congruence].
    + split; [discriminate | intros H; inversion H; congruence].
Qed.

Lemma check_fields_rejects (fields : list string) (doc : json) (e : exn) :
  check_fields fields doc = Raise e ->
  (exists pre f post,
      fields = (pre ++ f :: post)%list
      /\ List.Forall (fun g => contains g doc = Return true) pre
      /\ contains f doc = Return false
      /\ e = ValueError ("Invalid ontology: missing " +:+ f))
  \/ (exists msg, e = TypeError msg
                  /\ forall f, contains f doc = Raise (TypeError msg)).
Proof.
  induction fields as [|f fields IH]; simpl; [discriminate|].
  destruct (contains f doc) as [[|]|e'] eqn:E; simpl.
  - intros H. destruct (IH H) as [[pre [g [post [-> [Hpre [Hg ->]]]]]] | Hty].
    + left. exists (f :: pre), g, post. repeat split; auto.
    + right. exact Hty.
  - intros [= <-]. left. exists [], f, fields. repeat split; auto.
  - intros [= <-]. right.
    destruct (contains_cases f doc) as [[b Hb] | [msg Hmsg]]; [congruence|].
    exists msg. split; [|exact Hmsg]. rewrite Hmsg in E. congruence.
Qed.



End ValidationFacts.

(** X1. Validation hands back exactly the document it was given, and it does
    so precisely when the operator [in] finds each of the four required names
    in it: key membership for a dict, element membership for a list, substring
    for a string. *)
Theorem validate_ontology_accepts_iff (doc o : Py.json) :
  OntologyLoader._validate_ontology doc = Py.Return o
  <-> o = doc
      /\ List.Forall (fun f => Py.contains f doc = Py.Return true)
                     OntologyLoader.required_fields.
Proof.
  unfold OntologyLoader._validate_ontology.
  destruct (OntologyLoader.check_fields OntologyLoader.required_fields doc)
    as [[]|e] eqn:E; simpl.
  - apply check_fields_accepts in E. split.
    + intros [= <-]. auto.
    + intros [-> _]. reflexivity.
  - split; [discriminate|].
    intros [_ H]. apply check_fields_accepts in H. congruence.
Qed.

Example validate_accepts_list_of_names :
  let doc := Py.JList [Py.JStr "extractors"; Py.JStr "constraints";
                       Py.JStr "version"; Py.JStr "name"] in
  OntologyLoader._validate_ontology doc = Py.Return doc.
Proof. reflexivity. Qed.

(** X2. When validation fails, the error is either the missing-field
    [ValueError] for the first required name that [in] does not find (all
    names before it being found), or, for a document that is no container
    (null, a boolean, a number), the [TypeError] of the operator [in]. *)
Theorem validate_ontology_rejects (doc : Py.json) (e : Py.exn) :
  OntologyLoader._validate_ontology doc = Py.Raise e ->
  (exists pre f post,
      OntologyLoader.required_fields = (pre ++ f :: post)%list
      /\ List.Forall (fun g => Py.contains g doc = Py.Return true) pre
      /\ Py.contains f doc = Py.Return false
      /\ e = Py.ValueError ("Invalid ontology: missing " +:+ f))
  \/ (exists msg, e = Py.TypeError msg
                  /\ forall f, Py.contains f doc = Py.Raise (Py.TypeError msg)).
Proof.
  unfold OntologyLoader._validate_ontology. intros H.
  apply check_fields_rejects.
  destruct (OntologyLoader.check_fields OntologyLoader.required_fields doc);
    simpl in H; [discriminate | congruence].
Qed.

Lemma validate_ontology_rejects_witness :
  (exists pre f post,
      OntologyLoader.required_fields = (pre ++ f :: post)%list
      /\ List.Forall (fun g => Py.contains g (Py.JList [Py.JStr "name"])
                               = Py.Return true) pre
      /\ Py.contains f (Py.JList [Py.JStr "name"]) = Py.Return false
      /\ Py.ValueError "Invalid ontology: missing version"
         = Py.ValueError ("Invalid ontology: missing " +:+ f))
  \/ (exists msg, Py.ValueError "Invalid ontology: missing version" = Py.TypeError msg
                  /\ forall f, Py.contains f (Py.JList [Py.JStr "name"])
                               = Py.Raise (Py.TypeError msg)).
Proof.
  apply (validate_ontology_rejects (Py.JList [Py.JStr "name"])
           (Py.ValueError "Invalid ontology: missing version")).
  reflexivity.
Defined.

Section CacheFacts.
Import Py OntologyLoader.

Lemma key_eqb_eq (k1 k2 : key) : key_eqb k1 k2 = true <-> k1 = k2.
Proof.
  destruct k1 as [i1 n1], k2 as [i2 n2]. unfold key_eqb. simpl.
  rewrite andb_true_iff, Nat.eqb_eq, String.eqb_eq.
  split; [intros [-> ->]; reflexivity | intros [= -> ->]; auto].
Qed.

Lemma key_eqb_refl (k : key) : key_eqb k k = true.
Proof. now apply key_eqb_eq. Qed.

Lemma key_eqb_neq (k1 k2 : key) : k1 <> k2 -> key_eqb k1 k2 = false.
Proof.
  intros H. destruct (key_eqb k1 k2) eqn:E; [|reflexivity].
  apply key_eqb_eq in E. contradiction.
Qed.

Lemma cache_find_none (k : key) (c : cache) :
  cache_find k c = None <-> ~ In k (map fst c).
Proof.
  induction c as [|[k' v] c IH]; simpl.
  - tauto.
  - destruct (key_eqb k k') eqn:E.
    + apply key_eqb_eq in E. subst. split; [discriminate | tauto].
    + rewrite IH. split.
      * intros H [-> | Hin]; [rewrite key_eqb_refl in E; discriminate | tauto].
      * tauto.
Qed.

Lemma cache_find_app (k : key) (c1 c2 : cache) :
  cache_find k (c1 ++ c2)%list
  = match cache_find k c1 with
    | Some v => Some v
    | None => cache_find k c2
    end.
Proof.
  induction c1 as [|[k' v] c1 IH]; simpl; [reflexivity|].
  destruct (key_eqb k k'); [reflexivity | exact IH].
Qed.

Lemma cache_find_remove_other (k k' : key) (c : cache) :
  k' <> k -> cache_find k' (cache_remove k c) = cache_find k' c.
Proof.
  intros Hne. induction c as [|[k0 v] c IH]; simpl; [reflexivity|].
  destruct (key_eqb k k0) eqn:E; simpl.
  - apply key_eqb_eq in E. subst k0. rewrite (key_eqb_neq _ _ Hne). exact IH.
  - rewrite IH. reflexivity.
Qed.

Lemma cache_remove_keys (k : key) (c : cache) :
  map fst (cache_remove k c)
  = List.filter (fun k' => negb (key_eqb k k')) (map fst c).
Proof.
  induction c as [|[k0 v] c IH]; simpl; [reflexivity|].
  destruct (key_eqb k k0); simpl; now rewrite IH.
Qed.

Lemma cache_remove_shorter (k : key) (c : cache) (o : json) :
  cache_find k c = Some o -> (length (cache_remove k c) < length c)%nat.
Proof.
  induction c as [|[k0 v] c IH]; simpl; [discriminate|].
  destruct (key_eqb k k0); simpl.
  - intros _. pose proof (filter_length_le (fun entry => negb (key_eqb k (fst entry))) c).
    unfold cache_remove. lia.
  - intros H. apply IH in H. lia.
Qed.

Lemma load_returns json_loads (self_id : nat) (self : t) (ontology_name : string)
    (c : cache) :
  exists o, fst (load json_loads self_id self ontology_name c) = Return o
            /\ cache_find (self_id, ontology_name)
                          (snd (load json_loads self_id self ontology_name c))
               = Some o.
Proof.
  unfold load. destruct (cache_find (self_id, ontology_name) c) as [o|].
  - exists o. simpl. rewrite key_eqb_refl. auto.
  - destruct (load_wrapped_total json_loads self ontology_name) as [o ->].
    exists o. simpl. rewrite key_eqb_refl. auto.
Qed.


End CacheFacts.



(** X4. Once a loader has loaded a name, its next load of that name gives
    the same ontology, whatever storage, parser and client are by then. *)
Theorem load_again_same
    (json_loads1 json_loads2 : string -> Py.result Py.json) (self_id : nat)
    (self1 self2 : OntologyLoader.t) (ontology_name : string)
    (c : OntologyLoader.cache) :
  fst (OntologyLoader.load json_loads2 self_id self2 ontology_name
         (snd (OntologyLoader.load json_loads1 self_id self1 ontology_name c)))
  = fst (OntologyLoader.load json_loads1 self_id self1 ontology_name c).
Proof.
  destruct (load_returns json_loads1 self_id self1 ontology_name c) as [o [Hr Hc]].
  rewrite Hr. unfold OntologyLoader.load at 1. rewrite Hc. reflexivity.
Qed.

(** X5. The fallback is cached: when a load that misses the cache fails to
    fetch the document and serves the default ontology, the next load of
    that name serves the default ontology again, even if storage would by
    then deliver a valid document. *)
Theorem default_stays_cached
    (json_loads1 json_loads2 : string -> Py.result Py.json) (self_id : nat)
    (self1 self2 : OntologyLoader.t) (client : OntologyLoader.BlobServiceClient)
    (ontology_name : string) (c : OntologyLoader.cache) :
  OntologyLoader.cache_find (self_id, ontology_name) c = None ->
  OntologyLoader.blob_service_client self1 = Some client ->
  Py.raises (OntologyLoader.fetch json_loads1 self1 client ontology_name) ->
  fst (OntologyLoader.load json_loads2 self_id self2 ontology_name
         (snd (OntologyLoader.load json_loads1 self_id self1 ontology_name c)))
  = Py.Return (OntologyLoader._get_default_ontology self1).
Proof.
  intros Hmiss Hclient Hraises.
  pose proof (load_wrapped_fetch_raises json_loads1 self1 client ontology_name
                Hclient Hraises) as Hw.
  unfold OntologyLoader.load at 2. rewrite Hmiss, Hw. simpl.
  unfold OntologyLoader.load. simpl. rewrite key_eqb_refl. reflexivity.
Qed.

Lemma default_stays_cached_witness :
  OntologyLoader.fetch Samples.loads_complete Fixtures.connected
                       (Fixtures.blob_store "custom-rules") "custom-rules-v2"
  = Py.Return Samples.complete_document
  /\ fst (OntologyLoader.load Samples.loads_complete 0 Fixtures.connected
            "custom-rules-v2"
            (snd (OntologyLoader.load Fixtures.loads_incomplete 0 Fixtures.connected
                                      "custom-rules-v2" [])))
     = Py.Return (OntologyLoader._get_default_ontology Fixtures.connected).
Proof.
  split; [reflexivity|].
  apply (default_stays_cached Fixtures.loads_incomplete Samples.loads_complete 0%nat
           Fixtures.connected Fixtures.connected
           (Fixtures.blob_store "custom-rules") "custom-rules-v2" []).
  - reflexivity.
  - reflexivity.
  - simpl. exact I.
Defined.

(** X6. The cache never grows beyond [maxsize]: a cache of at most ten
    entries has at most ten entries after a load. *)
Theorem load_cache_bounded
    (json_loads : string -> Py.result Py.json) (self_id : nat)
    (self : OntologyLoader.t) (ontology_name : string) (c : OntologyLoader.cache) :
  (length c <= OntologyLoader.maxsize)%nat ->
  (length (snd (OntologyLoader.load json_loads self_id self ontology_name c))
   <= OntologyLoader.maxsize)%nat.
Proof.
  intros Hlen. unfold OntologyLoader.load.
  destruct (OntologyLoader.cache_find (self_id, ontology_name) c) as [o|] eqn:Hfind.
  - simpl. apply cache_remove_shorter in Hfind. lia.
  - destruct (load_wrapped_total json_loads self ontology_name) as [o ->].
    simpl. pose proof (firstn_le_length (OntologyLoader.maxsize - 1) c) as Hf.
    unfold OntologyLoader.maxsize in *. simpl in *. lia.
Qed.

Lemma load_cache_bounded_witness :
  (length (snd (OntologyLoader.load Samples.loads_complete 0 Fixtures.connected
                                    "k" Samples.full_cache))
   <= OntologyLoader.maxsize)%nat.
Proof.
  apply (load_cache_bounded Samples.loads_complete 0%nat Fixtures.connected "k"
                            Samples.full_cache).
  vm_compute. lia.
Defined.

(** X7. The cache holds each key at most once: distinct keys stay distinct
    after a load. *)
Theorem load_cache_keys_distinct
    (json_loads : string -> Py.result Py.json) (self_id : nat)
    (self : OntologyLoader.t) (ontology_name : string) (c : OntologyLoader.cache) :
  List.NoDup (map fst c) ->
  List.NoDup
    (map fst (snd (OntologyLoader.load json_loads self_id self ontology_name c))).
Proof.
  intros Hnd. unfold OntologyLoader.load.
  destruct (OntologyLoader.cache_find (self_id, ontology_name) c) as [o|] eqn:Hfind.
  - simpl. constructor.
    + rewrite cache_remove_keys. intros Hin. apply filter_In in Hin.
      destruct Hin as [_ Hin]. rewrite key_eqb_refl in Hin. discriminate.
    + rewrite cache_remove_keys. now apply List.NoDup_filter.
  - destruct (load_wrapped_total json_loads self ontology_name) as [o ->].
    simpl. apply cache_find_none in Hfind.
    rewrite <- (firstn_skipn (OntologyLoader.maxsize - 1) c) in Hnd, Hfind.
    rewrite map_app in Hnd, Hfind.
    constructor.
    + intros Hin. apply Hfind. apply in_or_app. now left.
    + now apply List.NoDup_app_remove_r in Hnd.
Qed.

Lemma load_cache_keys_distinct_witness :
  List.NoDup
    (map fst (snd (OntologyLoader.load Samples.loads_complete 0 Fixtures.connected
                                       "c" Samples.full_cache))).
Proof.
  apply (load_cache_keys_distinct Samples.loads_complete 0%nat Fixtures.connected
                                  "c" Samples.full_cache).
  apply NoDup_ListNoDup, (bool_decide_unpack _). vm_compute. reflexivity.
Defined.

(** X8. A load that finds its key, or that finds room left in the cache,
    leaves the entries of all other keys as they were. *)
Theorem load_keeps_other_entries
    (json_loads : string -> Py.result Py.json) (self_id : nat)
    (self : OntologyLoader.t) (ontology_name : string) (c : OntologyLoader.cache)
    (k' : OntologyLoader.key) :
  k' <> (self_id, ontology_name) ->
  OntologyLoader.cache_find (self_id, ontology_name) c <> None
  \/ (length c < OntologyLoader.maxsize)%nat ->
  OntologyLoader.cache_find k'
    (snd (OntologyLoader.load json_loads self_id self ontology_name c))
  = OntologyLoader.cache_find k' c.
Proof.
  intros Hne Hroom. unfold OntologyLoader.load.
  destruct (OntologyLoader.cache_find (self_id, ontology_name) c) as [o|] eqn:Hfind.
  - simpl. rewrite (key_eqb_neq _ _ Hne).
    now apply cache_find_remove_other.
  - destruct Hroom as [Hfound | Hlen]; [congruence|].
    destruct (load_wrapped_total json_loads self ontology_name) as [o ->].
    simpl. rewrite (key_eqb_neq _ _ Hne).
    rewrite firstn_all2; [reflexivity|].
    unfold OntologyLoader.maxsize in *. lia.
Qed.

Lemma load_keeps_other_entries_witness :
  OntologyLoader.cache_find (0%nat, "a")
    (snd (OntologyLoader.load Samples.loads_complete 0 Fixtures.connected "c"
                              Samples.full_cache))
  = OntologyLoader.cache_find (0%nat, "a") Samples.full_cache.
Proof.
  apply (load_keeps_other_entries Samples.loads_complete 0%nat Fixtures.connected
                                  "c" Samples.full_cache (0%nat, "a")).
  - intros H. discriminate H.
  - left. vm_compute. intros H. discriminate H.
Defined.

(** X9. A load that misses a full cache of distinct keys evicts the least
    recently used entry, the last one, and nothing else: the keys become the
    new key followed by all old keys but the last, the last key is no longer
    found, and every other old key still finds its entry. *)
Theorem load_evicts_least_recent
    (json_loads : string -> Py.result Py.json) (self_id : nat)
    (self : OntologyLoader.t) (ontology_name : string) (c : OntologyLoader.cache) :
  length c = OntologyLoader.maxsize ->
  List.NoDup (map fst c) ->
  OntologyLoader.cache_find (self_id, ontology_name) c = None ->
  let c' := snd (OntologyLoader.load json_loads self_id self ontology_name c) in
  let oldest := List.last (map fst c) (self_id, ontology_name) in
  map fst c' = (self_id, ontology_name) :: removelast (map fst c)
  /\ OntologyLoader.cache_find oldest c' = None
  /\ forall k', k' <> oldest -> k' <> (self_id, ontology_name) ->
                OntologyLoader.cache_find k' c' = OntologyLoader.cache_find k' c.
Proof.
  intros Hlen Hnd Hmiss.
  assert (Hne : c <> []) by (intros ->; discriminate Hlen).
  destruct (exists_last Hne) as [c0 [[klast vlast] ->]].
  rewrite length_app in Hlen. simpl in Hlen.
  assert (Hlen0 : length c0 = 9%nat)
    by (unfold OntologyLoader.maxsize in Hlen; lia).
  rewrite map_app in *. simpl in *.
  rewrite last_last, removelast_last.
  unfold OntologyLoader.load. rewrite Hmiss.
  destruct (load_wrapped_total json_loads self ontology_name) as [o ->].
  assert (Hfirst : firstn (OntologyLoader.maxsize - 1) (c0 ++ [(klast, vlast)]) = c0).
  { change (OntologyLoader.maxsize - 1)%nat with 9%nat. rewrite <- Hlen0.
    rewrite firstn_app, firstn_all, Nat.sub_diag. simpl. apply app_nil_r. }
  cbn [snd]. change (OntologyLoader.maxsize - 1)%nat with 9%nat in *.
  rewrite Hfirst. simpl.
  apply cache_find_none in Hmiss. rewrite map_app in Hmiss. simpl in Hmiss.
  assert (Hk : klast <> (self_id, ontology_name)).
  { intros ->. apply Hmiss. apply in_or_app. right. now left. }
  split; [reflexivity|]. split.
  - rewrite (key_eqb_neq _ _ Hk). apply cache_find_none.
    apply List.NoDup_remove_2 in Hnd. now rewrite app_nil_r in Hnd.
  - intros k' Hlast Hnew. rewrite (key_eqb_neq _ _ Hnew).
    rewrite cache_find_app. simpl. rewrite (key_eqb_neq _ _ Hlast).
    destruct (OntologyLoader.cache_find k' c0); reflexivity.
Qed.

Lemma load_evicts_least_recent_witness :
  map fst (snd (OntologyLoader.load Samples.loads_complete 0 Fixtures.connected
                                    "k" Samples.full_cache))
  = (0%nat, "k") :: removelast (map fst Samples.full_cache)
  /\ OntologyLoader.cache_find (0%nat, "a")
       (snd (OntologyLoader.load Samples.loads_complete 0 Fixtures.connected
                                 "k" Samples.full_cache)) = None.
Proof.
  pose proof (load_evicts_least_recent Samples.loads_complete 0%nat
                Fixtures.connected "k" Samples.full_cache) as H.
  assert (Hlen : length Samples.full_cache = OntologyLoader.maxsize)
    by reflexivity.
  assert (Hnd : List.NoDup (map fst Samples.full_cache))
    by (apply NoDup_ListNoDup, (bool_decide_unpack _); vm_compute; reflexivity).
  assert (Hmiss : OntologyLoader.cache_find (0%nat, "k") Samples.full_cache = None)
    by reflexivity.
  destruct (H Hlen Hnd Hmiss) as [H1 [H2 _]].
  split; [exact H1 | exact H2].
Defined.

Section ListingFacts.
Import Py OntologyLoader.

Lemma ends_with_suffix (suffix s : string) :
  ends_with suffix s = true <-> exists pre, s = pre +:+ suffix.
Proof.
  induction s as [|c s IH]; simpl.
  - rewrite orb_false_r, String.eqb_eq. split.
    + intros ->. exists "". reflexivity.
    + intros [pre H]. destruct pre; simpl in H; [auto | discriminate].
  - rewrite orb_true_iff, String.eqb_eq, IH. split.
    + intros [-> | [pre ->]]; [exists ""; reflexivity | exists (String c pre); reflexivity].
    + intros [[|c' pre] H]; simpl in H.
      * left. auto.
      * right. injection H as _ ->. eauto.
Qed.

Lemma no_dot_cons (c : ascii) (s : string) :
  str_contains "." (String c s) = false ->
  Ascii.eqb "."%char c = false /\ str_contains "." s = false.
Proof.
  intros H.
  change (str_contains "." (String c s))
    with (str_prefix "." (String c s) || str_contains "." s) in H.
  apply orb_false_iff in H. destruct H as [H1 H2].
  split; [|exact H2].
  change (str_prefix "." (String c s))
    with (Ascii.eqb "."%char c && str_prefix "" s) in H1.
  destruct (Ascii.eqb "."%char c); [|reflexivity].
  destruct s; discriminate H1.
Qed.

Lemma replace_json_suffix (n : string) :
  str_contains "." n = false -> replace ".json" "" (n +:+ ".json") = n.
Proof.
  unfold replace. induction n as [|c n IH]; [reflexivity|].
  intros H. apply no_dot_cons in H. destruct H as [Hc Hn].
  change (String c n +:+ ".json") with (String c (n +:+ ".json")).
  cbn [replace_from str_prefix]. rewrite Hc. simpl andb. cbv iota.
  now rewrite IH.
Qed.

End ListingFacts.

Example replace_takes_every_occurrence :
  OntologyLoader.replace ".json" "" "rules.json.json" = "rules"
  /\ OntologyLoader.replace ".json" "" "my.jsonfile.json" = "myfile".
Proof. split; reflexivity. Qed.



(** X11. An empty string passed as [connection_string] does not switch
    storage off: the loader then takes the connection string of the
    environment, and holds the client the SDK builds from it. *)
Theorem init_empty_argument_uses_environment
    (environ : gmap string string)
    (sdk : string -> Py.result OntologyLoader.BlobServiceClient)
    (container : option string) (a : ascii) (cs : string)
    (client : OntologyLoader.BlobServiceClient) :
  environ !! "AZURE_STORAGE_CONNECTION_STRING" = Some (String a cs) ->
  sdk (String a cs) = Py.Return client ->
  let self := OntologyLoader.__init__ environ sdk container (Some "") in
  OntologyLoader.connection_string self = String a cs
  /\ OntologyLoader.blob_service_client self = Some client.
Proof.
  intros Henv Hsdk. unfold OntologyLoader.__init__. simpl.
  rewrite Henv. simpl. rewrite Hsdk. auto.
Qed.

Lemma init_empty_argument_uses_environment_witness :
  OntologyLoader.blob_service_client
    (OntologyLoader.__init__
       {[ "AZURE_STORAGE_CONNECTION_STRING" := "UseDevelopmentStorage=true" ]}
       (fun _ => Py.Return Fixtures.empty_store) None (Some ""))
  = Some Fixtures.empty_store.
Proof.
  refine (proj2 (init_empty_argument_uses_environment
            {[ "AZURE_STORAGE_CONNECTION_STRING" := "UseDevelopmentStorage=true" ]}
            (fun _ => Py.Return Fixtures.empty_store) None
            "U"%char "seDevelopmentStorage=true" Fixtures.empty_store _ _)).
  - reflexivity.
  - reflexivity.
Defined.

(** X12. [list_available] answers with the default name alone when the
    loader has no client and when reaching the container or listing its blobs
    raises. *)
Theorem list_available_falls_back
    (list_blobs : OntologyLoader.ContainerClient -> Py.result (list string))
    (self : OntologyLoader.t) :
  OntologyLoader.blob_service_client self = None
  \/ (exists client,
        OntologyLoader.blob_service_client self = Some client
        /\ Py.raises (Py.bind (OntologyLoader.get_container_client
                                 client (OntologyLoader.container_name self))
                              list_blobs)) ->
  OntologyLoader.list_available list_blobs self = ["mortgage-compliance-v1"].
Proof.
  unfold OntologyLoader.list_available.
  intros [-> | [client [-> Hr]]]; [reflexivity|].
  destruct (Py.bind _ list_blobs); [destruct Hr | reflexivity].
Qed.

Lemma list_available_falls_back_witness :
  OntologyLoader.list_available Samples.listing_fails Fixtures.connected
  = ["mortgage-compliance-v1"].
Proof.
  apply (list_available_falls_back Samples.listing_fails Fixtures.connected).
  right. exists (Fixtures.blob_store "custom-rules"). split.
  - reflexivity.
  - simpl. exact I.
Defined.

(** X13. When the listing succeeds, [list_available] does not fall back: it
    has one name per blob whose name ends in [.json], and it is the empty
    list exactly when no blob name ends in [.json]. *)
Theorem list_available_counts_json_blobs
    (list_blobs : OntologyLoader.ContainerClient -> Py.result (list string))
    (self : OntologyLoader.t) (client : OntologyLoader.BlobServiceClient)
    (names : list string) :
  OntologyLoader.blob_service_client self = Some client ->
  Py.bind (OntologyLoader.get_container_client
             client (OntologyLoader.container_name self)) list_blobs
  = Py.Return names ->
  length (OntologyLoader.list_available list_blobs self)
  = length (List.filter (OntologyLoader.ends_with ".json") names)
  /\ (OntologyLoader.list_available list_blobs self = []
      <-> List.Forall (fun n => OntologyLoader.ends_with ".json" n = false) names).
Proof.
  intros Hc Hl. unfold OntologyLoader.list_available. rewrite Hc, Hl.
  split; [apply length_map|].
  split.
  - intros H. apply map_eq_nil in H.
    apply List.Forall_forall. intros n Hn.
    destruct (OntologyLoader.ends_with ".json" n) eqn:E; [|reflexivity].
    assert (Hin : In n (List.filter (OntologyLoader.ends_with ".json") names))
      by (apply filter_In; auto).
    rewrite H in Hin. destruct Hin.
  - intros H. rewrite List.Forall_forall in H.
    destruct (List.filter (OntologyLoader.ends_with ".json") names) as [|n rest] eqn:E;
      [reflexivity|].
    assert (Hin : In n (List.filter (OntologyLoader.ends_with ".json") names))
      by (rewrite E; now left).
    apply filter_In in Hin. destruct Hin as [Hn He].
    rewrite (H n Hn) in He. discriminate.
Qed.

Lemma list_available_counts_json_blobs_witness :
  OntologyLoader.list_available (Samples.lists ["README.md"; "rules.yaml"])
                                Fixtures.connected = []
  <-> List.Forall (fun n => OntologyLoader.ends_with ".json" n = false)
                  ["README.md"; "rules.yaml"].
Proof.
  refine (proj2 (list_available_counts_json_blobs
            (Samples.lists ["README.md"; "rules.yaml"]) Fixtures.connected
            (Fixtures.blob_store "custom-rules") ["README.md"; "rules.yaml"] _ _)).
  - reflexivity.
  - reflexivity.
Defined.

(** X14. Listing undoes the naming of [load]: [load] asks for the blob
    [name.json], and a listed blob [name.json] whose [name] holds no dot is
    reported by [list_available] as [name]. *)
Theorem list_available_reports_loaded_name
    (list_blobs : OntologyLoader.ContainerClient -> Py.result (list string))
    (self : OntologyLoader.t) (client : OntologyLoader.BlobServiceClient)
    (names : list string) (ontology_name : string) :
  OntologyLoader.blob_service_client self = Some client ->
  Py.bind (OntologyLoader.get_container_client
             client (OntologyLoader.container_name self)) list_blobs
  = Py.Return names ->
  In (ontology_name +:+ ".json") names ->
  Py.str_contains "." ontology_name = false ->
  In ontology_name (OntologyLoader.list_available list_blobs self).
Proof.
  intros Hc Hl Hin Hdot. unfold OntologyLoader.list_available. rewrite Hc, Hl.
  apply in_map_iff. exists (ontology_name +:+ ".json"). split.
  - now apply replace_json_suffix.
  - apply filter_In. split; [exact Hin|].
    apply ends_with_suffix. now exists ontology_name.
Qed.

Lemma list_available_reports_loaded_name_witness :
  In "custom-rules-v2"
     (OntologyLoader.list_available
        (Samples.lists ["README.md"; "custom-rules-v2.json"]) Fixtures.connected).
Proof.
  apply (list_available_reports_loaded_name
           (Samples.lists ["README.md"; "custom-rules-v2.json"]) Fixtures.connected
           (Fixtures.blob_store "custom-rules")
           ["README.md"; "custom-rules-v2.json"] "custom-rules-v2").
  - reflexivity.
  - reflexivity.
  - simpl. tauto.
  - reflexivity.
Defined.

(** * Properties of the HTTP trigger *)

Section HandlerFacts.
Import Py FunctionApp.

Lemma response_headers (w : Collaborators) (req : HttpRequest)
    (cors_headers : list (string * string)) (response : HttpResponse) :
  try_block w req cors_headers = Done response ->
  headers response = cors_headers
  /\ (status_code response = 200 \/ status_code response = 400).
Proof.
  unfold try_block, and_then.
  repeat match goal with
         | |- context [match ?m with Done _ => _ | Failed _ => _ end] => destruct m
         | |- context [if ?b then _ else _] => destruct b
         end;
    intros H; try discriminate H; injection H as <-; simpl; auto.
Qed.

Lemma dict_get_app (k : string) (items more : list (string * json)) :
  dict_get k (items ++ more)%list
  = match dict_get k items with
    | Some v => Some v
    | None => dict_get k more
    end.
Proof.
  induction items as [|[k' v] items IH]; simpl; [reflexivity|].
  destruct (String.eqb k k'); [reflexivity | exact IH].
Qed.

Lemma not_options (req : HttpRequest) :
  method req <> "OPTIONS" -> String.eqb (method req) "OPTIONS" = false.
Proof. intros H. now apply String.eqb_neq. Qed.

End HandlerFacts.

(** X15. The [Access-Control-Allow-Origin] header is always one of the four
    allowed origins: the request's [Origin] when that is allowed, and
    [https://aare.ai] otherwise, also when the request has no [Origin]. The
    other three headers are fixed. *)
Theorem cors_origin_always_allowed (req : FunctionApp.HttpRequest) :
  exists o,
    In o FunctionApp.ALLOWED_ORIGINS
    /\ FunctionApp.get_cors_headers req
       = [("Content-Type", "application/json");
          ("Access-Control-Allow-Origin", o);
          ("Access-Control-Allow-Headers", "Content-Type,x-api-key,x-functions-key");
          ("Access-Control-Allow-Methods", "OPTIONS,POST")]
    /\ (In (default "" (FunctionApp.header req "Origin")) FunctionApp.ALLOWED_ORIGINS
        -> o = default "" (FunctionApp.header req "Origin"))
    /\ (~ In (default "" (FunctionApp.header req "Origin")) FunctionApp.ALLOWED_ORIGINS
        -> o = "https://aare.ai").
Proof.
  unfold FunctionApp.get_cors_headers.
  destruct (existsb (String.eqb (default "" (FunctionApp.header req "Origin")))
                    FunctionApp.ALLOWED_ORIGINS) eqn:E.
  - apply existsb_exists in E. destruct E as [x [Hx Heq]].
    apply String.eqb_eq in Heq. subst x.
    exists (default "" (FunctionApp.header req "Origin")).
    repeat split; auto. intros Hn. contradiction.
  - exists "https://aare.ai". repeat split; auto.
    + simpl. auto.
    + intros Hin. exfalso.
      assert (Ht : existsb (String.eqb (default "" (FunctionApp.header req "Origin")))
                           FunctionApp.ALLOWED_ORIGINS = true).
      { apply existsb_exists. eexists. split; [exact Hin | apply String.eqb_refl]. }
      congruence.
Qed.

(** X16. Whatever the request and whatever the components do, the trigger
    answers with status 200, 400 or 500 and with exactly the headers of
    [get_cors_headers]. *)
Theorem verify_status_and_headers
    (w : FunctionApp.Collaborators) (req : FunctionApp.HttpRequest) :
  FunctionApp.headers (FunctionApp.verify w req) = FunctionApp.get_cors_headers req
  /\ (FunctionApp.status_code (FunctionApp.verify w req) = 200
      \/ FunctionApp.status_code (FunctionApp.verify w req) = 400
      \/ FunctionApp.status_code (FunctionApp.verify w req) = 500).
Proof.
  unfold FunctionApp.verify.
  destruct (String.eqb (FunctionApp.method req) "OPTIONS"); [simpl; auto|].
  destruct (FunctionApp.try_block w req (FunctionApp.get_cors_headers req))
    as [response|e] eqn:E.
  - apply response_headers in E. destruct E as [-> [-> | ->]]; auto.
  - destruct (FunctionApp.is_value_error e); simpl; auto.
Qed.

(** X17. A request whose [llm_output] is missing or falsy (the empty string,
    null, false, zero, an empty list or dict) is answered 400 with
    [llm_output is required]; the loader, the parser and the verifier have no
    part in the answer. *)
Theorem missing_llm_output_rejected
    (w : FunctionApp.Collaborators) (req : FunctionApp.HttpRequest)
    (items : list (string * Py.json)) :
  FunctionApp.method req <> "OPTIONS" ->
  FunctionApp.get_json req = FunctionApp.Done (Py.JDict items) ->
  FunctionApp.truthy w (default (Py.JStr "") (Py.dict_get "llm_output" items)) = false ->
  FunctionApp.verify w req
  = {| FunctionApp.body :=
         FunctionApp.json_dumps w (Py.JDict [("error", Py.JStr "llm_output is required")]);
       FunctionApp.status_code := 400;
       FunctionApp.headers := FunctionApp.get_cors_headers req |}.
Proof.
  intros Hm Hj Ht. unfold FunctionApp.verify. rewrite (not_options req Hm).
  unfold FunctionApp.try_block. rewrite Hj. simpl. rewrite Ht. reflexivity.
Qed.

Lemma missing_llm_output_rejected_witness :
  FunctionApp.verify Requests.working
    (Requests.post None (FunctionApp.Done (Py.JDict [("ontology", Py.JStr "x")])))
  = {| FunctionApp.body :=
         FunctionApp.json_dumps Requests.working
           (Py.JDict [("error", Py.JStr "llm_output is required")]);
       FunctionApp.status_code := 400;
       FunctionApp.headers :=
         FunctionApp.get_cors_headers
           (Requests.post None
              (FunctionApp.Done (Py.JDict [("ontology", Py.JStr "x")]))) |}.
Proof.
  apply (missing_llm_output_rejected Requests.working
           (Requests.post None (FunctionApp.Done (Py.JDict [("ontology", Py.JStr "x")])))
           [("ontology", Py.JStr "x")]).
  - intros H. discriminate H.
  - reflexivity.
  - reflexivity.
Defined.

(** X18. A body that is valid JSON but not an object (a list, a string, a
    number, null) is answered 500 with type [AttributeError], not 400. *)
Theorem non_object_body_is_server_error
    (w : FunctionApp.Collaborators) (req : FunctionApp.HttpRequest)
    (content : Py.json) :
  FunctionApp.method req <> "OPTIONS" ->
  FunctionApp.get_json req = FunctionApp.Done content ->
  (forall items, content <> Py.JDict items) ->
  FunctionApp.verify w req
  = {| FunctionApp.body :=
         FunctionApp.json_dumps w
           (Py.JDict [("error",
                        Py.JStr (FunctionApp.describe
                                   w (FunctionApp.no_attribute_get content)));
                      ("type", Py.JStr "AttributeError")]);
       FunctionApp.status_code := 500;
       FunctionApp.headers := FunctionApp.get_cors_headers req |}.
Proof.
  intros Hm Hj Hn. unfold FunctionApp.verify. rewrite (not_options req Hm).
  unfold FunctionApp.try_block. rewrite Hj.
  destruct content; try reflexivity.
  destruct (Hn items eq_refl).
Qed.

Lemma non_object_body_is_server_error_witness :
  FunctionApp.status_code
    (FunctionApp.verify Requests.working
       (Requests.post None (FunctionApp.Done (Py.JList [Py.JStr "hello"]))))
  = 500.
Proof.
  rewrite (non_object_body_is_server_error Requests.working
             (Requests.post None (FunctionApp.Done (Py.JList [Py.JStr "hello"])))
             (Py.JList [Py.JStr "hello"])).
  - reflexivity.
  - intros H. discriminate H.
  - reflexivity.
  - intros items H. discriminate H.
Defined.

(** X19. When reading the body, the loader, the parser or the verifier
    raises, the trigger answers 400 with [Invalid JSON in request body] if
    the exception is a [ValueError], also when the body was fine JSON, and
    500 with the exception's text and class name otherwise. *)
Theorem raised_exception_answer
    (w : FunctionApp.Collaborators) (req : FunctionApp.HttpRequest)
    (e : FunctionApp.PyError) :
  FunctionApp.method req <> "OPTIONS" ->
  FunctionApp.get_json req = FunctionApp.Failed e
  \/ (exists items,
        FunctionApp.get_json req = FunctionApp.Done (Py.JDict items)
        /\ let llm_output := default (Py.JStr "") (Py.dict_get "llm_output" items) in
           let ontology_name :=
             default (Py.JStr "mortgage-compliance-v1") (Py.dict_get "ontology" items) in
           FunctionApp.truthy w llm_output = true
           /\ (FunctionApp.ontology_loader_load w ontology_name = FunctionApp.Failed e
               \/ exists ontology,
                    FunctionApp.ontology_loader_load w ontology_name
                    = FunctionApp.Done ontology
                    /\ (FunctionApp.llm_parser_parse w llm_output ontology
                        = FunctionApp.Failed e
                        \/ exists extracted_data,
                             FunctionApp.llm_parser_parse w llm_output ontology
                             = FunctionApp.Done extracted_data
                             /\ FunctionApp.smt_verifier_verify w extracted_data ontology
                                = FunctionApp.Failed e))) ->
  FunctionApp.verify w req
  = if FunctionApp.is_value_error e
    then {| FunctionApp.body :=
              FunctionApp.json_dumps w
                (Py.JDict [("error", Py.JStr "Invalid JSON in request body")]);
            FunctionApp.status_code := 400;
            FunctionApp.headers := FunctionApp.get_cors_headers req |}
    else {| FunctionApp.body :=
              FunctionApp.json_dumps w
                (Py.JDict [("error", Py.JStr (FunctionApp.message e));
                           ("type", Py.JStr (FunctionApp.class_name e))]);
            FunctionApp.status_code := 500;
            FunctionApp.headers := FunctionApp.get_cors_headers req |}.
Proof.
  intros Hm H. unfold FunctionApp.verify. rewrite (not_options req Hm).
  assert (Hfail : FunctionApp.try_block w req (FunctionApp.get_cors_headers req)
                  = FunctionApp.Failed e).
  { unfold FunctionApp.try_block.
    destruct H as [-> | [items [-> [Ht Hstage]]]]; [reflexivity|].
    simpl. rewrite Ht. simpl.
    destruct Hstage as [-> | [ontology [-> Hstage]]]; [reflexivity|].
    simpl.
    destruct Hstage as [-> | [extracted_data [Hp Hv]]]; [reflexivity|].
    rewrite Hp. simpl. rewrite Hv. reflexivity. }
  rewrite Hfail. reflexivity.
Qed.

Lemma raised_exception_answer_witness :
  FunctionApp.verify (Requests.verifier_raises (Requests.value_error "dti: bad value"))
    (Requests.post None (FunctionApp.Done (Py.JDict Requests.approval_request)))
  = {| FunctionApp.body :=
         Requests.dumps (Py.JDict [("error", Py.JStr "Invalid JSON in request body")]);
       FunctionApp.status_code := 400;
       FunctionApp.headers :=
         FunctionApp.get_cors_headers
           (Requests.post None
              (FunctionApp.Done (Py.JDict Requests.approval_request))) |}.
Proof.
  apply (raised_exception_answer
           (Requests.verifier_raises (Requests.value_error "dti: bad value"))
           (Requests.post None (FunctionApp.Done (Py.JDict Requests.approval_request)))
           (Requests.value_error "dti: bad value")).
  - intros H. discriminate H.
  - right. exists Requests.approval_request. split; [reflexivity|].
    split; [reflexivity|].
    right. eexists. split; [reflexivity|].
    right. eexists. split; reflexivity.
Defined.

(** X20. A request without the key [ontology] is treated exactly like the
    same request with [ontology] set to [mortgage-compliance-v1]. *)
Theorem missing_ontology_name_defaults
    (w : FunctionApp.Collaborators) (req : FunctionApp.HttpRequest)
    (items : list (string * Py.json)) :
  FunctionApp.get_json req = FunctionApp.Done (Py.JDict items) ->
  Py.dict_get "ontology" items = None ->
  FunctionApp.verify w req
  = FunctionApp.verify w
      {| FunctionApp.method := FunctionApp.method req;
         FunctionApp.header := FunctionApp.header req;
         FunctionApp.get_json :=
           FunctionApp.Done
             (Py.JDict (items ++ [("ontology", Py.JStr "mortgage-compliance-v1")])%list) |}.
Proof.
  intros Hj Hnone. unfold FunctionApp.verify, FunctionApp.get_cors_headers. simpl.
  destruct (String.eqb (FunctionApp.method req) "OPTIONS"); [reflexivity|].
  unfold FunctionApp.try_block. simpl. rewrite Hj. simpl.
  rewrite !dict_get_app, Hnone. simpl.
  destruct (Py.dict_get "llm_output" items); reflexivity.
Qed.

Lemma missing_ontology_name_defaults_witness :
  FunctionApp.verify Requests.working
    (Requests.post None (FunctionApp.Done (Py.JDict Requests.approval_request)))
  = FunctionApp.verify Requests.working
      (Requests.post None
         (FunctionApp.Done
            (Py.JDict [("llm_output", Py.JStr "Your loan is approved.");
                       ("ontology", Py.JStr "mortgage-compliance-v1")]))).
Proof.
  apply (missing_ontology_name_defaults Requests.working
           (Requests.post None (FunctionApp.Done (Py.JDict Requests.approval_request)))
           Requests.approval_request).
  - reflexivity.
  - reflexivity.
Defined.

(** X21. When every component answers, the trigger answers 200; the body
    reports the name and version of the loaded ontology and the number of
    its constraints, and passes on the parser's data and the verifier's
    [verified], [violations], [proof] and [execution_time_ms] unchanged. *)
Theorem successful_verification_answer
    (w : FunctionApp.Collaborators) (req : FunctionApp.HttpRequest)
    (items ontology result : list (string * Py.json))
    (extracted_data name version verified violations proof execution_time_ms : Py.json)
    (constraints : list Py.json) :
  let llm_output := default (Py.JStr "") (Py.dict_get "llm_output" items) in
  let ontology_name :=
    default (Py.JStr "mortgage-compliance-v1") (Py.dict_get "ontology" items) in
  FunctionApp.method req <> "OPTIONS" ->
  FunctionApp.get_json req = FunctionApp.Done (Py.JDict items) ->
  FunctionApp.truthy w llm_output = true ->
  FunctionApp.ontology_loader_load w ontology_name = FunctionApp.Done (Py.JDict ontology) ->
  FunctionApp.llm_parser_parse w llm_output (Py.JDict ontology)
  = FunctionApp.Done extracted_data ->
  FunctionApp.smt_verifier_verify w extracted_data (Py.JDict ontology)
  = FunctionApp.Done (Py.JDict result) ->
  Py.dict_get "name" ontology = Some name ->
  Py.dict_get "version" ontology = Some version ->
  Py.dict_get "constraints" ontology = Some (Py.JList constraints) ->
  Py.dict_get "verified" result = Some verified ->
  Py.dict_get "violations" result = Some violations ->
  Py.dict_get "proof" result = Some proof ->
  Py.dict_get "execution_time_ms" result = Some execution_time_ms ->
  FunctionApp.verify w req
  = {| FunctionApp.body :=
         FunctionApp.json_dumps w
           (Py.JDict
              [("verified", verified);
               ("violations", violations);
               ("parsed_data", extracted_data);
               ("ontology",
                 Py.JDict [("name", name);
                           ("version", version);
                           ("constraints_checked",
                             Py.JInt (Z.of_nat (length constraints)))]);
               ("proof", proof);
               ("solver", Py.JStr "Constraint Logic");
               ("verification_id", Py.JStr (FunctionApp.uuid4 w));
               ("execution_time_ms", execution_time_ms);
               ("timestamp", Py.JStr (FunctionApp.utcnow_isoformat w))]);
       FunctionApp.status_code := 200;
       FunctionApp.headers := FunctionApp.get_cors_headers req |}.
Proof.
  intros llm_output ontology_name Hm Hj Ht Hl Hp Hv Hn Hver Hc H1 H2 H3 H4.
  unfold FunctionApp.verify. rewrite (not_options req Hm).
  unfold FunctionApp.try_block. rewrite Hj. simpl.
  fold llm_output. fold ontology_name. rewrite Ht. simpl.
  rewrite Hl. simpl. rewrite Hp. simpl. rewrite Hv. simpl.
  unfold FunctionApp.response_body, FunctionApp.getitem.
  rewrite H1, H2, Hn, Hver, Hc, H3, H4. reflexivity.
Qed.

Lemma successful_verification_answer_witness :
  FunctionApp.status_code
    (FunctionApp.verify Requests.working
       (Requests.post (Some "https://www.aare.ai")
                      (FunctionApp.Done (Py.JDict Requests.approval_request))))
  = 200.
Proof.
  rewrite (successful_verification_answer Requests.working
             (Requests.post (Some "https://www.aare.ai")
                            (FunctionApp.Done (Py.JDict Requests.approval_request)))
             Requests.approval_request
             [("name", Py.JStr "mortgage-compliance-v1");
              ("version", Py.JStr "1.0.0");
              ("description", Py.JStr "U.S. Mortgage Compliance - Core constraints");
              ("constraints", Py.JList OntologyLoader.default_constraints);
              ("extractors", Py.JDict OntologyLoader.default_extractors)]
             [("verified", Py.JBool true);
              ("violations", Py.JList []);
              ("proof", Py.JDict []);
              ("execution_time_ms", Py.JInt 3)]
             (Py.JDict [("has_approval", Py.JBool true)])
             (Py.JStr "mortgage-compliance-v1") (Py.JStr "1.0.0")
             (Py.JBool true) (Py.JList []) (Py.JDict []) (Py.JInt 3)
             OntologyLoader.default_constraints).
  - reflexivity.
  - intros H. discriminate H.
  - reflexivity.
  - reflexivity.
  - reflexivity.
  - reflexivity.
  - reflexivity.
  - reflexivity.
  - reflexivity.
  - reflexivity.
  - reflexivity.
  - reflexivity.
  - reflexivity.
  - reflexivity.
Defined.

